(** * Dual numbers (src/duals.py): a shallow embedding and its properties

    The Python module defines the class [Dual] (a value together with a
    derivative, with the arithmetic operators overloaded), the helper
    [value_and_derivative_at_point], the class [GeneralFunction] and a script
    entry point.

    The program is embedded twice, on two readings of its numbers.

    Exact numbers.  In the first part a number is the exact rational it
    stands for ([Qc], the rationals in lowest terms, whose equality is
    Leibniz equality).  On ints [+], [-], [*] and powers with an exponent
    that is not negative are what Python computes.  This part carries what
    does not hang on rounding: which method an operator reaches, what the
    methods do with the two parts, and the runs on small ints.

    Python's numbers.  Module [Machine] is the same program on the numbers as
    Python has them: an [int] is an integer without bound, a [float] an
    IEEE 754 double (rounding to nearest, ties to even, with signed zeros,
    infinities and NaN), an int that meets a float is converted first, and
    the operators raise [ZeroDivisionError] and [OverflowError] where
    Python's do.  What the C library's [pow] returns and what the operators
    of [complex] do is left to the platform.  This part carries what hangs
    on the numbers: the quotient rule, the power rule and the identities
    between computations.

    Memory is not bounded in either part, and the rendering of numbers as
    text ([__str__], [__repr__], the line the helper prints) is not modelled
    beyond the values printed.

    Objects.  The two parts of a [Dual] are numbers.  An operator is
    dispatched the way Python 3 does it: the forward method of the left
    operand, else the reflected method of the right operand, looked up by
    name in the class.

    Effects.  A call returns a value or raises; [print] appends to the
    standard output, which the helper threads through. *)

From Stdlib Require Import ZArith QArith Qcanon Qreduction Qpower.
From Stdlib Require Import Bool String List Lia Floats.
Import ListNotations.

Open Scope string_scope.
Open Scope Qc_scope.

(* ================================================================== *)
(** ** Exceptions and results *)

(** The exceptions that the modelled code and the interpreter can raise. *)
Inductive exception : Type :=
| ZeroDivisionError
| OverflowError
| ValueError
| TypeError
| AttributeError.

(** A call either returns a value or raises. *)
Inductive result (A : Type) : Type :=
| Return (a : A)
| Raise (e : exception).

Arguments Return {A} a.
Arguments Raise {A} e.

Definition bind {A B : Type} (r : result A) (k : A -> result B) : result B :=
  match r with
  | Return a => k a
  | Raise e => Raise e
  end.

Notation "x <- r ;; k" := (bind r (fun x => k))
  (at level 61, r at next level, right associativity).

(* ================================================================== *)
(** ** Numeric scalars *)

(** The scalar of the Python int [z]. *)
Definition int (z : Z) : Qc := Q2Qc (inject_Z z).

(** A scalar is a whole number when its denominator, in lowest terms, is 1. *)
Definition is_integer (y : Qc) : bool := (Qden y =? 1)%positive.

(** [x] to the integer power [n]; a negative power is the inverse of the
    positive one. *)
Definition Qcpowz (x : Qc) (n : Z) : Qc := Q2Qc (Qpower x n).

(** For an exponent that is not a whole number Python hands [x ** y] to the C
    library's [pow], which returns a rounded real number or fails.  That
    routine is not part of this repository: the model takes it as given. *)
Class Libm : Type := libm_pow : Qc -> Qc -> result Qc.

(** A platform on which [pow] always reports a range error; it serves to run
    the model on inputs whose exponents are whole numbers. *)
Definition libm_range_error : Libm := fun _ _ => Raise OverflowError.

(** [x / y] on numbers. *)
Definition py_truediv (x y : Qc) : result Qc :=
  if Qc_eq_bool y 0 then Raise ZeroDivisionError else Return (x / y).

(** [x ** y] on numbers. *)
Definition py_pow {libm : Libm} (x y : Qc) : result Qc :=
  if is_integer y then
    if Qc_eq_bool x 0 && (Qnum y <? 0)%Z then Raise ZeroDivisionError
    else Return (Qcpowz x (Qnum y))
  else libm_pow x y.

(* ================================================================== *)
(** ** Objects *)

(** [class Dual]: [__init__] stores the two parts. *)
Record Dual : Type := mkDual { real_part : Qc; dual_part : Qc }.

(** The Python objects that reach the operators: numbers ([int], [float]),
    instances of [Dual], [None] (an object that is neither), and instances of
    [NotImplementedError], which the methods below build and hand back. *)
Inductive value : Type :=
| Num (c : Qc)
| DualObj (d : Dual)
| NoneObj
| NotImplementedErrorObj (msg : string).

(** [type(other).__name__].  The model does not tell [int] from [float]; the
    methods of [Dual] never ask for the name of a number's type. *)
Definition type_name (other : value) : string :=
  match other with
  | Num c => if is_integer c then "int" else "float"
  | DualObj _ => "Dual"
  | NoneObj => "NoneType"
  | NotImplementedErrorObj _ => "NotImplementedError"
  end.

(** An operand that is neither a dual nor a number. *)
Definition unsupported (other : value) : bool :=
  match other with
  | Num _ | DualObj _ => false
  | NoneObj | NotImplementedErrorObj _ => true
  end.

(* ================================================================== *)
(** ** The methods of [Dual] *)

Module Dual.
Section Methods.
Context {libm : Libm}.

Definition __add__ (self : Dual) (other : value) : result value :=
  match other with
  | DualObj other =>
      Return (DualObj (mkDual (real_part self + real_part other)
                              (dual_part self + dual_part other)))
  | Num other =>
      Return (DualObj (mkDual (real_part self + other) (dual_part self)))
  | _ =>
      Return (NotImplementedErrorObj
                (type_name other ++ " type not defined for addition with duals"))
  end.

Definition __radd__ := __add__.

Definition __sub__ (self : Dual) (other : value) : result value :=
  match other with
  | DualObj other =>
      Return (DualObj (mkDual (real_part self - real_part other)
                              (dual_part self - dual_part other)))
  | Num other =>
      Return (DualObj (mkDual (real_part self - other) (dual_part self)))
  | _ =>
      Return (NotImplementedErrorObj
                (type_name other ++ " type not defined for subtraction with duals"))
  end.

Definition __rsub__ := __sub__.

Definition __mul__ (self : Dual) (other : value) : result value :=
  match other with
  | DualObj other =>
      Return (DualObj (mkDual (real_part self * real_part other)
                              (dual_part self + dual_part other)))
  | Num other =>
      Return (DualObj (mkDual (real_part self * other) (dual_part self * other)))
  | _ =>
      Return (NotImplementedErrorObj
                (type_name other ++ " type not defined for multiplciation with duals"))
  end.

Definition __rmul__ := __mul__.

Definition __truediv__ (self : Dual) (other : value) : result value :=
  match other with
  | DualObj other =>
      let dual_numerator :=
        dual_part self * real_part other - dual_part other * real_part self in
      dual_denominator <- py_pow (real_part other) (int 2) ;;
      re <- py_truediv (real_part self) (real_part other) ;;
      du <- py_truediv dual_numerator dual_denominator ;;
      Return (DualObj (mkDual re du))
  | Num other =>
      re <- py_truediv (real_part self) other ;;
      Return (DualObj (mkDual re (dual_part self)))
  | _ =>
      Return (NotImplementedErrorObj
                (type_name other ++ " type not defined for division with duals"))
  end.

Definition __rdiv__ (self : Dual) (other : value) : result value :=
  match other with
  | DualObj other => __truediv__ other (DualObj self)
  | Num other =>
      re <- py_truediv other (real_part self) ;;
      du <- py_truediv (int 1) (dual_part self) ;;
      Return (DualObj (mkDual re du))
  | _ =>
      Return (NotImplementedErrorObj
                (type_name other ++ " type not defined for division with duals"))
  end.

Definition __pow__ (self : Dual) (other : value) : result value :=
  match other with
  | Num other =>
      re <- py_pow (real_part self) other ;;
      p <- py_pow (real_part self) (other - int 1) ;;
      Return (DualObj (mkDual re (other * dual_part self * p)))
  | _ =>
      Return (NotImplementedErrorObj
                (type_name other ++ " not defined for power with duals. Only int/float"))
  end.

(** The binary methods that the body of [class Dual] binds, by name. *)
Definition methods : list (string * (Dual -> value -> result value)) :=
  [ ("__add__", __add__); ("__radd__", __radd__);
    ("__sub__", __sub__); ("__rsub__", __rsub__);
    ("__mul__", __mul__); ("__rmul__", __rmul__);
    ("__truediv__", __truediv__);
    ("__rdiv__", __rdiv__);
    ("__pow__", __pow__) ].

(** Attribute lookup on the class. *)
Fixpoint lookup_in (l : list (string * (Dual -> value -> result value)))
    (name : string) : option (Dual -> value -> result value) :=
  match l with
  | [] => None
  | (n, m) :: rest => if String.eqb n name then Some m else lookup_in rest name
  end.

Definition lookup (name : string) : option (Dual -> value -> result value) :=
  lookup_in methods name.

End Methods.
End Dual.

(* ================================================================== *)
(** ** Binary operators *)

(** The arithmetic operators of Python expressions ([ast.Add], [ast.Sub],
    [ast.Mult], [ast.Div], [ast.Pow]). *)
Inductive operator : Type := Add | Sub | Mult | Div | Pow.

(** The method Python calls on the left operand of an operator ... *)
Definition forward_name (op : operator) : string :=
  match op with
  | Add => "__add__"
  | Sub => "__sub__"
  | Mult => "__mul__"
  | Div => "__truediv__"
  | Pow => "__pow__"
  end.

(** ... and the reflected method it calls on the right operand when the left
    one does not handle the operation. *)
Definition reflected_name (op : operator) : string :=
  match op with
  | Add => "__radd__"
  | Sub => "__rsub__"
  | Mult => "__rmul__"
  | Div => "__rtruediv__"
  | Pow => "__rpow__"
  end.

Section Interpreter.
Context {libm : Libm}.

(** An operator applied to two numbers. *)
Definition number_op (op : operator) (a b : Qc) : result Qc :=
  match op with
  | Add => Return (a + b)
  | Sub => Return (a - b)
  | Mult => Return (a * b)
  | Div => py_truediv a b
  | Pow => py_pow a b
  end.

(** [left op right].  A [Dual] on the left answers with its forward method.
    With a number, [None] or an exception instance on the left and a [Dual] on
    the right, the left operand does not handle the operation and Python
    turns to the reflected method of [Dual]; when the class has none, or when
    no operand is a [Dual] and they are not both numbers, the operation raises
    [TypeError]. *)
Definition binary_op (op : operator) (left right : value) : result value :=
  match left, right with
  | Num a, Num b => c <- number_op op a b ;; Return (Num c)
  | DualObj d, _ =>
      match Dual.lookup (forward_name op) with
      | Some method => method d right
      | None => Raise TypeError
      end
  | _, DualObj d =>
      match Dual.lookup (reflected_name op) with
      | Some method => method d left
      | None => Raise TypeError
      end
  | _, _ => Raise TypeError
  end.

End Interpreter.

(* ================================================================== *)
(** ** [GeneralFunction] and the derivative helper *)

(** The text of a [GeneralFunction] is held as the expression Python parses
    it to: arithmetic over the variable [x] and numeric literals. *)
Inductive expr : Type :=
| Name_x
| Constant (c : Qc)
| BinOp (left : expr) (op : operator) (right : expr).

(** [class GeneralFunction]: [__init__] stores the definition. *)
Record GeneralFunction : Type := mkGeneralFunction { definition : expr }.

(** What [print] wrote: the line of [value_and_derivative_at_point], by the
    objects formatted into it. *)
Record printed : Type := mkPrinted {
  printed_function : GeneralFunction;
  printed_point : Qc;
  printed_value : Qc;
  printed_deriv : Qc
}.

Section Evaluator.
Context {libm : Libm}.

(** [eval] of an expression with [x] bound: operands left to right, then the
    operator. *)
Fixpoint eval (e : expr) (x : value) : result value :=
  match e with
  | Name_x => Return x
  | Constant c => Return (Num c)
  | BinOp e1 op e2 =>
      l <- eval e1 x ;;
      r <- eval e2 x ;;
      binary_op op l r
  end.

(** [obj.real_part] and [obj.dual_part]: only a [Dual] has them. *)
Definition get_real_part (obj : value) : result Qc :=
  match obj with
  | DualObj d => Return (real_part d)
  | _ => Raise AttributeError
  end.

Definition get_dual_part (obj : value) : result Qc :=
  match obj with
  | DualObj d => Return (dual_part d)
  | _ => Raise AttributeError
  end.

End Evaluator.

Module GeneralFunction.
Section Methods.
Context {libm : Libm}.

Definition function (self : GeneralFunction) (x : value) : result value :=
  eval (definition self) x.

End Methods.
End GeneralFunction.

Section Helper.
Context {libm : Libm}.

(** [value_and_derivative_at_point]: what it returns (or raises) and the
    standard output after the call. *)
Definition value_and_derivative_at_point (function_to_eval : GeneralFunction)
    (point : Qc) (stdout : list printed) : result (Qc * Qc) * list printed :=
  let outcome :=
    result <- GeneralFunction.function function_to_eval
                (DualObj (mkDual point (int 1))) ;;
    value <- get_real_part result ;;
    deriv <- get_dual_part result ;;
    Return (value, deriv) in
  match outcome with
  | Return (value, deriv) =>
      (Return (value, deriv),
       (stdout ++ [mkPrinted function_to_eval point value deriv])%list)
  | Raise e => (Raise e, stdout)
  end.

End Helper.

(** The objects of the script's entry point ([if __name__ == "__main__"]):
    the two sample numbers and the function [x**2 + 7*x - 18]. *)
Module Main.

Definition x : Dual := mkDual (int 4) (int 3).
Definition y : Dual := mkDual (int 5) (int 7).

Definition func : GeneralFunction :=
  mkGeneralFunction
    (BinOp (BinOp (BinOp Name_x Pow (Constant (int 2))) Add
                  (BinOp (Constant (int 7)) Mult Name_x))
           Sub (Constant (int 18))).

End Main.

(* ================================================================== *)
(** ** Numbers and duals among the objects *)

(** An object that is a number or a dual. *)
Definition is_numeric (v : value) : bool :=
  match v with
  | Num _ | DualObj _ => true
  | NoneObj | NotImplementedErrorObj _ => false
  end.

(* ================================================================== *)
(** ** Python's numbers *)

(** The same program on the numbers as Python has them: an [int] is an
    integer without bound, a [float] an IEEE 754 double, and a [complex] a
    pair of doubles.  The operators round, convert an int that meets a float
    and raise [OverflowError] and [ZeroDivisionError] as Python does. *)
Module Machine.

Local Close Scope Qc_scope.

Inductive number : Type :=
| Int (z : Z)
| Float (f : float)
| Complex (re im : float).

(** [isinstance(other, (int, float))]. *)
Definition is_int_or_float (n : number) : bool :=
  match n with
  | Int _ | Float _ => true
  | Complex _ _ => false
  end.

(** The error indicator the C library leaves after a call. *)
Inductive errno : Type := no_error | ERANGE | EDOM.

(** What lies outside this repository and outside Python's own arithmetic on
    ints and doubles: [pow] of the C library, which Python calls for a finite
    positive base other than 1 and a finite exponent other than 0, and the
    operators of [complex], which take over as soon as an operand is complex
    or a negative base meets a fractional exponent. *)
Class Platform : Type := {
  libm_pow : float -> float -> float * errno;
  complex_op : operator -> number -> number -> result number
}.

(** [float(z)] for an int: the nearest double, ties to even; an int beyond
    the range of doubles raises. *)
Definition float_of_int (z : Z) : result float :=
  match binary_normalize prec emax z 0 false with
  | S754_infinity _ => Raise OverflowError
  | s => Return (SF2Prim s)
  end.

(** An int as an unrounded binary number. *)
Definition binary_of_int (z : Z) : spec_float :=
  match z with
  | Z0 => S754_zero false
  | Zpos p => S754_finite false p 0
  | Zneg p => S754_finite true p 0
  end.

(** [a / b] on ints: the double nearest to the quotient. *)
Definition int_truediv (a b : Z) : result float :=
  if (b =? 0)%Z then Raise ZeroDivisionError
  else
    match SFdiv prec emax (binary_of_int a) (binary_of_int b) with
    | S754_infinity _ => Raise OverflowError
    | s => Return (SF2Prim s)
    end.

(** [a / b] on floats. *)
Definition float_truediv (a b : float) : result float :=
  if (b =? 0)%float then Raise ZeroDivisionError else Return (a / b)%float.

(** Whether a finite double is a whole number ([iw == floor(iw)]), and
    whether it is an odd one ([fmod(fabs(iw), 2.0) == 1.0]). *)
Definition is_whole (f : float) : bool :=
  match Prim2SF f with
  | S754_zero _ => true
  | S754_finite _ m e =>
      (0 <=? e)%Z || (Z.pos m mod 2 ^ (- e) =? 0)%Z
  | S754_infinity _ => true
  | S754_nan => false
  end.

Definition is_odd_whole (f : float) : bool :=
  match Prim2SF f with
  | S754_finite _ m e =>
      if (0 <? e)%Z then false
      else (Z.pos m mod 2 ^ (- e) =? 0)%Z && Z.odd (Z.pos m / 2 ^ (- e))
  | _ => false
  end.

Section Arithmetic.
Context {platform : Platform}.

(** [iv ** iw] on floats, case by case as Python sorts them out before it
    calls [pow]. *)
Definition float_pow (iv iw : float) : result number :=
  if (iw =? 0)%float then Return (Float 1)
  else if is_nan iv then Return (Float iv)
  else if is_nan iw then Return (Float (if (iv =? 1)%float then 1%float else iw))
  else if is_infinity iw then
    let iv := abs iv in
    if (iv =? 1)%float then Return (Float 1)
    else if Bool.eqb (0 <? iw)%float (1 <? iv)%float then Return (Float (abs iw))
    else Return (Float 0)
  else if is_infinity iv then
    let iw_is_odd := is_odd_whole iw in
    if (0 <? iw)%float then Return (Float (if iw_is_odd then iv else abs iv))
    else Return (Float (if iw_is_odd
                        then (if (iv <? 0)%float then neg_zero else zero)
                        else zero))
  else if (iv =? 0)%float then
    if (iw <? 0)%float then Raise ZeroDivisionError
    else Return (Float (if is_odd_whole iw then iv else zero))
  else if (iv <? 0)%float && negb (is_whole iw) then
    complex_op Pow (Float iv) (Float iw)
  else
    let negate_result := (iv <? 0)%float && is_odd_whole iw in
    let iv := if (iv <? 0)%float then (- iv)%float else iv in
    if (iv =? 1)%float then
      Return (Float (if negate_result then (-1)%float else 1%float))
    else
      let (ix, e) := libm_pow iv iw in
      let e :=
        match e with
        | no_error => if is_infinity ix then ERANGE else no_error
        | ERANGE => if (ix =? 0)%float then no_error else ERANGE
        | EDOM => EDOM
        end in
      let ix := if negate_result then (- ix)%float else ix in
      match e with
      | no_error => Return (Float ix)
      | ERANGE => Raise OverflowError
      | EDOM => Raise ValueError
      end.

(** An operator on two floats. *)
Definition float_op (op : operator) (a b : float) : result number :=
  match op with
  | Add => Return (Float (a + b))
  | Sub => Return (Float (a - b))
  | Mult => Return (Float (a * b))
  | Div => q <- float_truediv a b ;; Return (Float q)
  | Pow => float_pow a b
  end.

(** An operator on two ints: exact, but for [/], which gives a float, and
    for a negative exponent, which goes through the floats. *)
Definition int_op (op : operator) (a b : Z) : result number :=
  match op with
  | Add => Return (Int (a + b))
  | Sub => Return (Int (a - b))
  | Mult => Return (Int (a * b))
  | Div => q <- int_truediv a b ;; Return (Float q)
  | Pow =>
      if (0 <=? b)%Z then Return (Int (a ^ b))
      else
        iv <- float_of_int a ;;
        iw <- float_of_int b ;;
        float_pow iv iw
  end.

(** An operator on two numbers: an int that meets a float is converted. *)
Definition number_op (op : operator) (a b : number) : result number :=
  match a, b with
  | Complex _ _, _ | _, Complex _ _ => complex_op op a b
  | Int x, Int y => int_op op x y
  | Int x, Float y => x' <- float_of_int x ;; float_op op x' y
  | Float x, Int y => y' <- float_of_int y ;; float_op op x y'
  | Float x, Float y => float_op op x y
  end.

End Arithmetic.

(** [class Dual] on these numbers. *)
Record Dual : Type := mkDual { real_part : number; dual_part : number }.

Inductive value : Type :=
| Num (n : number)
| DualObj (d : Dual)
| NoneObj
| NotImplementedErrorObj (msg : string).

(** [type(other).__name__]. *)
Definition type_name (other : value) : string :=
  match other with
  | Num (Int _) => "int"
  | Num (Float _) => "float"
  | Num (Complex _ _) => "complex"
  | DualObj _ => "Dual"
  | NoneObj => "NoneType"
  | NotImplementedErrorObj _ => "NotImplementedError"
  end.

(** An object that is a number or a dual. *)
Definition is_numeric (v : value) : bool :=
  match v with
  | Num _ | DualObj _ => true
  | NoneObj | NotImplementedErrorObj _ => false
  end.

Module Dual.
Section Methods.
Context {platform : Platform}.

Definition __add__ (self : Dual) (other : value) : result value :=
  match other with
  | DualObj other =>
      re <- number_op Add (real_part self) (real_part other) ;;
      du <- number_op Add (dual_part self) (dual_part other) ;;
      Return (DualObj (mkDual re du))
  | Num other =>
      if is_int_or_float other then
        re <- number_op Add (real_part self) other ;;
        Return (DualObj (mkDual re (dual_part self)))
      else
        Return (NotImplementedErrorObj
                  (type_name (Num other) ++ " type not defined for addition with duals"))
  | _ =>
      Return (NotImplementedErrorObj
                (type_name other ++ " type not defined for addition with duals"))
  end.

Definition __radd__ := __add__.

Definition __sub__ (self : Dual) (other : value) : result value :=
  match other with
  | DualObj other =>
      re <- number_op Sub (real_part self) (real_part other) ;;
      du <- number_op Sub (dual_part self) (dual_part other) ;;
      Return (DualObj (mkDual re du))
  | Num other =>
      if is_int_or_float other then
        re <- number_op Sub (real_part self) other ;;
        Return (DualObj (mkDual re (dual_part self)))
      else
        Return (NotImplementedErrorObj
                  (type_name (Num other) ++ " type not defined for subtraction with duals"))
  | _ =>
      Return (NotImplementedErrorObj
                (type_name other ++ " type not defined for subtraction with duals"))
  end.

Definition __rsub__ := __sub__.

Definition __mul__ (self : Dual) (other : value) : result value :=
  match other with
  | DualObj other =>
      re <- number_op Mult (real_part self) (real_part other) ;;
      du <- number_op Add (dual_part self) (dual_part other) ;;
      Return (DualObj (mkDual re du))
  | Num other =>
      if is_int_or_float other then
        re <- number_op Mult (real_part self) other ;;
        du <- number_op Mult (dual_part self) other ;;
        Return (DualObj (mkDual re du))
      else
        Return (NotImplementedErrorObj
                  (type_name (Num other) ++ " type not defined for multiplciation with duals"))
  | _ =>
      Return (NotImplementedErrorObj
                (type_name other ++ " type not defined for multiplciation with duals"))
  end.

Definition __rmul__ := __mul__.

Definition __truediv__ (self : Dual) (other : value) : result value :=
  match other with
  | DualObj other =>
      l <- number_op Mult (dual_part self) (real_part other) ;;
      r <- number_op Mult (dual_part other) (real_part self) ;;
      dual_numerator <- number_op Sub l r ;;
      dual_denominator <- number_op Pow (real_part other) (Int 2) ;;
      re <- number_op Div (real_part self) (real_part other) ;;
      du <- number_op Div dual_numerator dual_denominator ;;
      Return (DualObj (mkDual re du))
  | Num other =>
      if is_int_or_float other then
        re <- number_op Div (real_part self) other ;;
        Return (DualObj (mkDual re (dual_part self)))
      else
        Return (NotImplementedErrorObj
                  (type_name (Num other) ++ " type not defined for division with duals"))
  | _ =>
      Return (NotImplementedErrorObj
                (type_name other ++ " type not defined for division with duals"))
  end.

Definition __rdiv__ (self : Dual) (other : value) : result value :=
  match other with
  | DualObj other => __truediv__ other (DualObj self)
  | Num other =>
      if is_int_or_float other then
        re <- number_op Div other (real_part self) ;;
        du <- number_op Div (Int 1) (dual_part self) ;;
        Return (DualObj (mkDual re du))
      else
        Return (NotImplementedErrorObj
                  (type_name (Num other) ++ " type not defined for division with duals"))
  | _ =>
      Return (NotImplementedErrorObj
                (type_name other ++ " type not defined for division with duals"))
  end.

Definition __pow__ (self : Dual) (other : value) : result value :=
  match other with
  | Num other =>
      if is_int_or_float other then
        re <- number_op Pow (real_part self) other ;;
        l <- number_op Mult other (dual_part self) ;;
        m <- number_op Sub other (Int 1) ;;
        p <- number_op Pow (real_part self) m ;;
        du <- number_op Mult l p ;;
        Return (DualObj (mkDual re du))
      else
        Return (NotImplementedErrorObj
                  (type_name (Num other) ++ " not defined for power with duals. Only int/float"))
  | _ =>
      Return (NotImplementedErrorObj
                (type_name other ++ " not defined for power with duals. Only int/float"))
  end.

(** The binary methods that the body of [class Dual] binds, by name. *)
Definition methods : list (string * (Dual -> value -> result value)) :=
  [ ("__add__", __add__); ("__radd__", __radd__);
    ("__sub__", __sub__); ("__rsub__", __rsub__);
    ("__mul__", __mul__); ("__rmul__", __rmul__);
    ("__truediv__", __truediv__);
    ("__rdiv__", __rdiv__);
    ("__pow__", __pow__) ].

Fixpoint lookup_in (l : list (string * (Dual -> value -> result value)))
    (name : string) : option (Dual -> value -> result value) :=
  match l with
  | [] => None
  | (n, m) :: rest => if String.eqb n name then Some m else lookup_in rest name
  end.

Definition lookup (name : string) : option (Dual -> value -> result value) :=
  lookup_in methods name.

End Methods.
End Dual.

(** Arithmetic expressions in [x]: the variable, numeric literals and the
    five binary operators. *)
Inductive expr : Type :=
| Name_x
| Constant (n : number)
| BinOp (left : expr) (op : operator) (right : expr).

Record GeneralFunction : Type := mkGeneralFunction { definition : expr }.

Record printed : Type := mkPrinted {
  printed_function : GeneralFunction;
  printed_point : number;
  printed_value : number;
  printed_deriv : number
}.

Section Interpreter.
Context {platform : Platform}.

(** [left op right], dispatched as Python 3 does. *)
Definition binary_op (op : operator) (left right : value) : result value :=
  match left, right with
  | Num a, Num b => c <- number_op op a b ;; Return (Num c)
  | DualObj d, _ =>
      match Dual.lookup (forward_name op) with
      | Some method => method d right
      | None => Raise TypeError
      end
  | _, DualObj d =>
      match Dual.lookup (reflected_name op) with
      | Some method => method d left
      | None => Raise TypeError
      end
  | _, _ => Raise TypeError
  end.

Fixpoint eval (e : expr) (x : value) : result value :=
  match e with
  | Name_x => Return x
  | Constant c => Return (Num c)
  | BinOp e1 op e2 =>
      l <- eval e1 x ;;
      r <- eval e2 x ;;
      binary_op op l r
  end.

Definition get_real_part (obj : value) : result number :=
  match obj with
  | DualObj d => Return (real_part d)
  | _ => Raise AttributeError
  end.

Definition get_dual_part (obj : value) : result number :=
  match obj with
  | DualObj d => Return (dual_part d)
  | _ => Raise AttributeError
  end.

Definition function (self : GeneralFunction) (x : value) : result value :=
  eval (definition self) x.

Definition value_and_derivative_at_point (function_to_eval : GeneralFunction)
    (point : number) (stdout : list printed) : result (number * number) * list printed :=
  let outcome :=
    result <- function function_to_eval (DualObj (mkDual point (Int 1))) ;;
    value <- get_real_part result ;;
    deriv <- get_dual_part result ;;
    Return (value, deriv) in
  match outcome with
  | Return (value, deriv) =>
      (Return (value, deriv),
       (stdout ++ [mkPrinted function_to_eval point value deriv])%list)
  | Raise e => (Raise e, stdout)
  end.

End Interpreter.

(** A platform on which [pow] of the C library and the operators of
    [complex] report an error; it serves to run the program where neither is
    reached. *)
Definition no_libm : Platform :=
  {| libm_pow := fun _ _ => (nan, EDOM);
     complex_op := fun _ _ _ => Raise ValueError |}.

(** The objects of the script's entry point. *)
Module Main.

Definition x : Dual := mkDual (Int 4) (Int 3).
Definition y : Dual := mkDual (Int 5) (Int 7).

Definition func : GeneralFunction :=
  mkGeneralFunction
    (BinOp (BinOp (BinOp Name_x Pow (Constant (Int 2))) Add
                  (BinOp (Constant (Int 7)) Mult Name_x))
           Sub (Constant (Int 18))).

End Main.

(** *** Expressions on the integers *)

(** The integer a literal stands for (0 for another literal). *)
Definition literal (n : number) : Z :=
  match n with
  | Int z => z
  | _ => 0%Z
  end.

(** Whether the expression names [x]. *)
Fixpoint mentions_x (e : expr) : bool :=
  match e with
  | Name_x => true
  | Constant _ => false
  | BinOp a _ b => mentions_x a || mentions_x b
  end.

(** No subtraction with an operand free of [x] on the left and one that
    names [x] on the right ([c - x]). *)
Fixpoint no_reflected_sub (e : expr) : bool :=
  match e with
  | Name_x | Constant _ => true
  | BinOp a op b =>
      no_reflected_sub a && no_reflected_sub b &&
      match op with
      | Sub => mentions_x a || negb (mentions_x b)
      | _ => true
      end
  end.

(** The integer an expression denotes at the integer [p] ([/] is not used
    on the integers and counts as 0). *)
Fixpoint value_at (e : expr) (p : Z) : Z :=
  match e with
  | Name_x => p
  | Constant n => literal n
  | BinOp a op b =>
      match op with
      | Add => value_at a p + value_at b p
      | Sub => value_at a p - value_at b p
      | Mult => value_at a p * value_at b p
      | Div => 0
      | Pow => value_at a p ^ value_at b p
      end
  end%Z.

(** Its derivative at [p] by the rules of calculus: sum, difference and
    product rule, and the power rule for a constant exponent.  This is the
    reference the dual part is compared with. *)
Fixpoint derivative_at (e : expr) (p : Z) : Z :=
  match e with
  | Name_x => 1
  | Constant _ => 0
  | BinOp a op b =>
      match op with
      | Add => derivative_at a p + derivative_at b p
      | Sub => derivative_at a p - derivative_at b p
      | Mult => derivative_at a p * value_at b p + value_at a p * derivative_at b p
      | Div => 0
      | Pow => value_at b p * derivative_at a p * value_at a p ^ (value_at b p - 1)
      end
  end%Z.

(** Expressions free of [x] built from int literals with [+], [-], [*]. *)
Fixpoint int_constant (e : expr) : bool :=
  match e with
  | Name_x => false
  | Constant (Int _) => true
  | Constant _ => false
  | BinOp a op b =>
      int_constant a && int_constant b &&
      match op with
      | Add | Sub | Mult => true
      | Div | Pow => false
      end
  end.

(** Polynomial expressions in [x]: [+] of two such expressions or of one and
    an int constant on either side, [-] of two or with the constant on the
    right, [*] by an int constant on either side, and [**] with an int
    literal at least 1 as the exponent. *)
Fixpoint polynomial (e : expr) : bool :=
  match e with
  | Name_x => true
  | Constant _ => false
  | BinOp a op b =>
      match op with
      | Add =>
          (polynomial a && (polynomial b || int_constant b))
          || (int_constant a && polynomial b)
      | Sub => polynomial a && (polynomial b || int_constant b)
      | Mult =>
          (polynomial a && int_constant b) || (int_constant a && polynomial b)
      | Div => false
      | Pow =>
          polynomial a &&
          match b with
          | Constant (Int n) => (1 <=? n)%Z
          | _ => false
          end
      end
  end.

(** The expression [f] with the expression [g], in parentheses, in the
    place of every [x]. *)
Fixpoint substitute (f g : expr) : expr :=
  match f with
  | Name_x => g
  | Constant c => Constant c
  | BinOp a op b => BinOp (substitute a g) op (substitute b g)
  end.

(** The expression and all the expressions it is built from. *)
Fixpoint subexpressions (e : expr) : list expr :=
  match e with
  | Name_x | Constant _ => [e]
  | BinOp a _ b => e :: (subexpressions a ++ subexpressions b)%list
  end.

(** [+] and [*] commute when an operand is complex (the other may be an int
    or a float as well). *)
Definition complex_commutes {platform : Platform} : Prop :=
  forall a b : number,
    complex_op Add a b = complex_op Add b a
    /\ complex_op Mult a b = complex_op Mult b a.

End Machine.

(* ================================================================== *)
(** ** Arithmetic of the scalars *)

(** Closed equations between scalars are settled by comparing the fractions. *)
Ltac qc_canon :=
  match goal with
  | |- @eq Qc _ _ => apply Qc_is_canon; vm_compute; reflexivity
  end.

(** Runs both sides of a closed equation of the model. *)
Ltac run := vm_compute; repeat first [ qc_canon | reflexivity | f_equal ].

Lemma this_int (n : Z) : this (int n) = inject_Z n.
Proof.
  change (Qred (inject_Z n) = inject_Z n).
  apply Qred_identity. unfold inject_Z; simpl.
  apply Z.gcd_1_r.
Qed.

Lemma Qnum_int (n : Z) : Qnum (int n) = n.
Proof. rewrite this_int. reflexivity. Qed.

Lemma int_inj (a b : Z) : int a = int b -> a = b.
Proof. intro H. rewrite <- (Qnum_int a), <- (Qnum_int b). now rewrite H. Qed.

(** The whole numbers are closed under [+], [*] and [-]: on Python ints the
    model computes what Python computes. *)
Lemma int_add (a b : Z) : int a + int b = int (a + b).
Proof.
  apply Qc_is_canon.
  unfold Qcplus, Q2Qc; cbn [this].
  rewrite !Qred_correct, !this_int.
  rewrite <- inject_Z_plus. reflexivity.
Qed.

Lemma int_mul (a b : Z) : int a * int b = int (a * b).
Proof.
  apply Qc_is_canon.
  unfold Qcmult, Q2Qc; cbn [this].
  rewrite !Qred_correct, !this_int.
  rewrite <- inject_Z_mult. reflexivity.
Qed.

Lemma int_sub (a b : Z) : int a - int b = int (a - b).
Proof.
  apply Qc_is_canon.
  unfold Qcminus, Qcplus, Qcopp, Q2Qc; cbn [this].
  rewrite !Qred_correct, !this_int.
  rewrite <- inject_Z_opp, <- inject_Z_plus. reflexivity.
Qed.

(* ================================================================== *)
(** ** What the operators compute *)

Section Operators.
Context {libm : Libm}.

(** [X + Y] on two duals adds part by part. *)
Lemma add_dual_dual (X Y : Dual) :
  binary_op Add (DualObj X) (DualObj Y) =
  Return (DualObj (mkDual (real_part X + real_part Y) (dual_part X + dual_part Y))).
Proof. reflexivity. Qed.

(** [X - Y] on two duals subtracts part by part. *)
Lemma sub_dual_dual (X Y : Dual) :
  binary_op Sub (DualObj X) (DualObj Y) =
  Return (DualObj (mkDual (real_part X - real_part Y) (dual_part X - dual_part Y))).
Proof. reflexivity. Qed.


(** [X + c], [X - c] and [X * c] with a number on the right. *)
Lemma add_dual_scalar (X : Dual) (c : Qc) :
  binary_op Add (DualObj X) (Num c) =
  Return (DualObj (mkDual (real_part X + c) (dual_part X))).
Proof. reflexivity. Qed.

Lemma sub_dual_scalar (X : Dual) (c : Qc) :
  binary_op Sub (DualObj X) (Num c) =
  Return (DualObj (mkDual (real_part X - c) (dual_part X))).
Proof. reflexivity. Qed.

Lemma mul_dual_scalar (X : Dual) (c : Qc) :
  binary_op Mult (DualObj X) (Num c) =
  Return (DualObj (mkDual (real_part X * c) (dual_part X * c))).
Proof. reflexivity. Qed.

(** For [+] and [-] a number on the right acts as the dual with dual part 0. *)
Lemma add_sub_promote (X : Dual) (c : Qc) :
  binary_op Add (DualObj X) (Num c) =
    binary_op Add (DualObj X) (DualObj (mkDual c (int 0)))
  /\ binary_op Sub (DualObj X) (Num c) =
    binary_op Sub (DualObj X) (DualObj (mkDual c (int 0))).
Proof.
  rewrite add_dual_scalar, sub_dual_scalar, add_dual_dual, sub_dual_dual.
  cbn [real_part dual_part]. change (int 0) with 0.
  split; do 3 f_equal; ring.
Qed.

(** With the number on the left, [+], [-] and [*] run the forward method of
    the dual on the right: the reflected names are bound to it. *)
Lemma reflected_is_forward (op : operator) (c : Qc) (X : Dual) :
  op = Add \/ op = Sub \/ op = Mult ->
  binary_op op (Num c) (DualObj X) = binary_op op (DualObj X) (Num c).
Proof. intros [-> | [-> | ->]]; reflexivity. Qed.

(** The class binds no [__rtruediv__] and no [__rpow__]: with a [Dual] on the
    right only, [/] and [**] raise [TypeError]. *)
Lemma no_reflected_division : Dual.lookup "__rtruediv__" = None.
Proof. reflexivity. Qed.

Lemma no_reflected_power : Dual.lookup "__rpow__" = None.
Proof. reflexivity. Qed.

Lemma rtruediv_raises (c : Qc) (X : Dual) :
  binary_op Div (Num c) (DualObj X) = Raise TypeError.
Proof. reflexivity. Qed.

(** On such an operand every operator of a dual returns, as an ordinary
    value, an instance of [NotImplementedError]; nothing is raised. *)
Lemma unsupported_operand_is_returned (op : operator) (X : Dual) (other : value) :
  unsupported other = true ->
  exists msg, binary_op op (DualObj X) other = Return (NotImplementedErrorObj msg).
Proof.
  intro H. destruct other; try discriminate H; destruct op; cbn; eauto.
Qed.

(** So does [**] on a dual exponent. *)
Lemma dual_exponent_is_returned (X Y : Dual) :
  binary_op Pow (DualObj X) (DualObj Y) =
  Return (NotImplementedErrorObj "Dual not defined for power with duals. Only int/float").
Proof. reflexivity. Qed.

End Operators.

(* ================================================================== *)
(** ** The product, the reflected operators and unsupported operands *)

Section Defects.
Context {libm : Libm}.

(** C1.  The product rule asks for the dual part
    [X.real_part * Y.dual_part + Y.real_part * X.dual_part].  On the sample
    numbers [x = Dual(4, 3)] and [y = Dual(5, 7)] that is 43, while [x * y]
    returns [Dual(20, 10)]: for all duals the real parts are multiplied, as
    claimed, and the dual parts are added. *)
Theorem product_adds_dual_parts :
  binary_op Mult (DualObj Main.x) (DualObj Main.y) =
    Return (DualObj (mkDual (int 20) (int 10)))
  /\ real_part Main.x * real_part Main.y = int 20
  /\ real_part Main.x * dual_part Main.y + real_part Main.y * dual_part Main.x = int 43
  /\ int 10 <> int 43
  /\ (forall X Y : Dual,
        binary_op Mult (DualObj X) (DualObj Y) =
        Return (DualObj (mkDual (real_part X * real_part Y)
                                (dual_part X + dual_part Y)))).
Proof.
  repeat split; try solve [run].
  intro H. apply int_inj in H. discriminate H.
Qed.

(** C2.  For the scalar 1 and [x = Dual(4, 3)], [1 - x] should be
    [Dual(1 - 4, -3) = Dual(-3, -3)].  The reflected subtraction is the
    forward method: [1 - x] returns [Dual(3, 3)], the value of [x - 1], and
    for every scalar [c] and dual [X], [c - X] returns what [X - c] returns,
    [Dual(X.real_part - c, X.dual_part)]. *)
Theorem reflected_subtraction_is_forward :
  binary_op Sub (Num (int 1)) (DualObj Main.x) =
    Return (DualObj (mkDual (int 3) (int 3)))
  /\ binary_op Sub (DualObj Main.x) (Num (int 1)) =
    Return (DualObj (mkDual (int 3) (int 3)))
  /\ mkDual (int 1 - real_part Main.x) (- dual_part Main.x) =
     mkDual (int (-3)) (int (-3))
  /\ int 3 <> int (-3)
  /\ (forall (c : Qc) (X : Dual),
        binary_op Sub (Num c) (DualObj X) =
        Return (DualObj (mkDual (real_part X - c) (dual_part X)))).
Proof.
  repeat split; try solve [run].
  intro H. apply int_inj in H. discriminate H.
Qed.

(** C3.  A scalar operand is not treated as the dual with dual part 0 by [*]
    and by [/].  For [x = Dual(4, 3)] and the scalar 2: [x * 2] returns
    [Dual(8, 6)] and [x * Dual(2, 0)] returns [Dual(8, 3)]; [x / 2] returns
    [Dual(2, 3)] and [x / Dual(2, 0)] returns [Dual(2, 3/2)]. *)
Theorem scalar_is_not_promoted :
  binary_op Mult (DualObj Main.x) (Num (int 2)) =
    Return (DualObj (mkDual (int 8) (int 6)))
  /\ binary_op Mult (DualObj Main.x) (DualObj (mkDual (int 2) (int 0))) =
    Return (DualObj (mkDual (int 8) (int 3)))
  /\ binary_op Div (DualObj Main.x) (Num (int 2)) =
    Return (DualObj (mkDual (int 2) (int 3)))
  /\ binary_op Div (DualObj Main.x) (DualObj (mkDual (int 2) (int 0))) =
    Return (DualObj (mkDual (int 2) (int 3 / int 2)))
  /\ int 6 <> int 3
  /\ int 3 <> int 3 / int 2.
Proof.
  repeat split; try solve [run].
  - intro H. apply int_inj in H. discriminate H.
  - intro H. apply (f_equal (fun q : Qc => Qden q)) in H. vm_compute in H.
    discriminate H.
Qed.

(** C4.  For the scalar 1 and [x = Dual(4, 3)], [1 / x] should be
    [Dual(1/4, -3/16)].  The class binds the reflected division to the name
    [__rdiv__], which [/] does not look up: [c / X] raises [TypeError] for
    every scalar [c] and dual [X].  Called by its name, [__rdiv__] returns
    [Dual(1/4, 1/3)] on these operands. *)
Theorem reflected_division_raises :
  binary_op Div (Num (int 1)) (DualObj Main.x) = Raise TypeError
  /\ Dual.lookup (reflected_name Div) = None
  /\ Dual.__rdiv__ Main.x (Num (int 1)) =
    Return (DualObj (mkDual (int 1 / int 4) (int 1 / int 3)))
  /\ mkDual (int 1 / real_part Main.x)
            (- int 1 * dual_part Main.x / real_part Main.x ^ 2) =
     mkDual (int 1 / int 4) (int (-3) / int 16)
  /\ int 1 / int 3 <> int (-3) / int 16
  /\ (forall (c : Qc) (X : Dual),
        binary_op Div (Num c) (DualObj X) = Raise TypeError).
Proof.
  repeat split; try solve [run].
  intro H. apply (f_equal (fun q : Qc => Qden q)) in H. vm_compute in H.
  discriminate H.
Qed.

(** C5.  Adding [None] to [x = Dual(4, 3)] raises nothing: the operator
    returns an instance of [NotImplementedError] as its value, and so does
    every operator of every dual on [None].  So does [**] on a dual
    exponent. *)
Theorem unsupported_operand_not_raised :
  binary_op Add (DualObj Main.x) NoneObj =
    Return (NotImplementedErrorObj
              "NoneType type not defined for addition with duals")
  /\ binary_op Pow (DualObj Main.x) (DualObj Main.y) =
    Return (NotImplementedErrorObj
              "Dual not defined for power with duals. Only int/float")
  /\ (forall (op : operator) (X : Dual),
        exists msg : string,
          binary_op op (DualObj X) NoneObj = Return (NotImplementedErrorObj msg))
  /\ (forall X Y : Dual,
        exists msg : string,
          binary_op Pow (DualObj X) (DualObj Y) = Return (NotImplementedErrorObj msg)).
Proof.
  repeat split; try reflexivity.
  - intros op X. exact (unsupported_operand_is_returned op X NoneObj eq_refl).
  - intros X Y. eexists. apply dual_exponent_is_returned.
Qed.

End Defects.

(* ================================================================== *)
(** ** Commutativity *)

Section Rules.
Context {libm : Libm}.


End Rules.

(* ================================================================== *)
(** ** The derivative helper *)

Section HelperProperties.
Context {libm : Libm}.

(** The helper returns the two parts of what the function returns on the
    seed [Dual(point, 1)], and prints one line. *)
Lemma helper_on_dual (f : GeneralFunction) (point : Qc) (stdout : list printed)
    (r : Dual) :
  GeneralFunction.function f (DualObj (mkDual point (int 1))) = Return (DualObj r) ->
  value_and_derivative_at_point f point stdout =
  (Return (real_part r, dual_part r),
   (stdout ++ [mkPrinted f point (real_part r) (dual_part r)])%list).
Proof.
  intro H. unfold value_and_derivative_at_point. rewrite H. reflexivity.
Qed.

(** [x**2 + 7*x - 18] on the seed [Dual(7, 1)]. *)
Lemma func_at_7 :
  GeneralFunction.function Main.func (DualObj (mkDual (int 7) (int 1))) =
  Return (DualObj (mkDual (int 80) (int 21))).
Proof. run. Qed.

(** C8.  For [x**2 + 7*x - 18] at the point 7 the helper returns the value 80
    and the derivative 21 (and prints them). *)
Theorem polynomial_at_7 (stdout : list printed) :
  value_and_derivative_at_point Main.func (int 7) stdout =
  (Return (int 80, int 21),
   (stdout ++ [mkPrinted Main.func (int 7) (int 80) (int 21)])%list).
Proof. exact (helper_on_dual _ _ _ _ func_at_7). Qed.

(** C10.  The helper applies the function to the seed [Dual(point, 1)] and
    returns the pair of the real part and the dual part of the result (it
    raises what the function raises, and [AttributeError] on a result that is
    no dual); for the identity function it returns [(point, 1)]. *)
Theorem helper_contract :
  (forall (f : GeneralFunction) (point : Qc) (stdout : list printed),
      value_and_derivative_at_point f point stdout =
      match GeneralFunction.function f (DualObj (mkDual point (int 1))) with
      | Return (DualObj r) =>
          (Return (real_part r, dual_part r),
           (stdout ++ [mkPrinted f point (real_part r) (dual_part r)])%list)
      | Return _ => (Raise AttributeError, stdout)
      | Raise e => (Raise e, stdout)
      end)
  /\ (forall (point : Qc) (stdout : list printed),
      value_and_derivative_at_point (mkGeneralFunction Name_x) point stdout =
      (Return (point, int 1),
       (stdout ++ [mkPrinted (mkGeneralFunction Name_x) point point (int 1)])%list)).
Proof.
  split.
  - intros f point stdout. unfold value_and_derivative_at_point.
    destruct (GeneralFunction.function f (DualObj (mkDual point (int 1))))
      as [[c | r | | msg] | e]; reflexivity.
  - intros point stdout. reflexivity.
Qed.

End HelperProperties.

(* ================================================================== *)
(** ** Objects that are no numbers and no duals *)

Section Absorbing.
Context {libm : Libm}.

Lemma numeric_result_operands (op : operator) (l r v : value) :
  binary_op op l r = Return v ->
  is_numeric v = true ->
  is_numeric l = true /\ is_numeric r = true.
Proof.
  intros H Hv.
  destruct l as [a | A | | ml], r as [b | B | | mr];
    try (split; reflexivity);
    destruct op; cbn in H; try discriminate H;
    injection H as <-; discriminate Hv.
Qed.

(** X10.  An operator returns a number or a dual only on operands that are
    numbers or duals: on [None] or on an instance of [NotImplementedError]
    (what an earlier operator returned for an unsupported operand) it raises
    or returns such an instance again. *)
Theorem numeric_result_needs_numeric_operands (op : operator) (l r v : value) :
  binary_op op l r = Return v ->
  is_numeric v = true ->
  is_numeric l = true /\ is_numeric r = true.
Proof. exact (numeric_result_operands op l r v). Qed.

End Absorbing.

Lemma add_dual_at_samples :
  binary_op (libm := libm_range_error) Add (DualObj Main.x) (DualObj Main.y)
    = Return (DualObj (mkDual (int 9) (int 10))).
Proof. run. Qed.

(** [x + y] on the sample numbers is a dual, from two duals. *)
Lemma numeric_operands_at_samples :
  binary_op (libm := libm_range_error) Add (DualObj Main.x) (DualObj Main.y)
    = Return (DualObj (mkDual (int 9) (int 10)))
  /\ is_numeric (DualObj (mkDual (int 9) (int 10))) = true
  /\ is_numeric (DualObj Main.x) = true /\ is_numeric (DualObj Main.y) = true.
Proof.
  split; [exact add_dual_at_samples |].
  split; [reflexivity |].
  exact (@numeric_result_needs_numeric_operands libm_range_error Add
           (DualObj Main.x) (DualObj Main.y) (DualObj (mkDual (int 9) (int 10)))
           add_dual_at_samples eq_refl).
Defined.

(* ================================================================== *)
(** * The program on Python's numbers *)

Close Scope Qc_scope.

(* ================================================================== *)
(** ** The operators on Python's numbers *)

Section MachineOperators.
Context {platform : Machine.Platform}.
Import Machine.

(** On two ints [+], [-] and [*] are exact and never raise. *)
Lemma int_sum_difference_product (a b : Z) :
  number_op Add (Int a) (Int b) = Return (Int (a + b))
  /\ number_op Sub (Int a) (Int b) = Return (Int (a - b))
  /\ number_op Mult (Int a) (Int b) = Return (Int (a * b)).
Proof. repeat split. Qed.

(** A power of an int by an int that is not negative is exact. *)
Lemma int_power (a n : Z) :
  (0 <= n)%Z -> number_op Pow (Int a) (Int n) = Return (Int (a ^ n)).
Proof.
  intro H. cbn. apply Z.leb_le in H. now rewrite H.
Qed.

(** The quotient of two ints raises [ZeroDivisionError] on the divisor 0 and
    nothing but [OverflowError] on another divisor. *)
Lemma int_truediv_zero (a : Z) : int_truediv a 0 = Raise ZeroDivisionError.
Proof. reflexivity. Qed.

Lemma int_truediv_raises (a b : Z) (e : exception) :
  b <> 0%Z -> int_truediv a b = Raise e -> e = OverflowError.
Proof.
  intros Hb H. unfold int_truediv in H.
  apply Z.eqb_neq in Hb. rewrite Hb in H.
  destruct (SFdiv prec emax (binary_of_int a) (binary_of_int b));
    try discriminate H.
  now injection H as <-.
Qed.

(** The operators of a dual, by the method they reach. *)
Lemma div_is_truediv (X : Dual) (other : value) :
  binary_op Div (DualObj X) other = Dual.__truediv__ X other.
Proof. reflexivity. Qed.

Lemma pow_is_pow (X : Dual) (other : value) :
  binary_op Pow (DualObj X) other = Dual.__pow__ X other.
Proof. reflexivity. Qed.

(** [X / Y] step by step. *)
Lemma div_dual_dual_steps (X Y : Dual) (l r num den q d : number) :
  number_op Mult (dual_part X) (real_part Y) = Return l ->
  number_op Mult (dual_part Y) (real_part X) = Return r ->
  number_op Sub l r = Return num ->
  number_op Pow (real_part Y) (Int 2) = Return den ->
  number_op Div (real_part X) (real_part Y) = Return q ->
  number_op Div num den = Return d ->
  binary_op Div (DualObj X) (DualObj Y) = Return (DualObj (mkDual q d)).
Proof.
  intros Hl Hr Hn Hd Hq Hdu.
  rewrite div_is_truediv. unfold Dual.__truediv__.
  rewrite Hl; cbn [bind]. rewrite Hr; cbn [bind]. rewrite Hn; cbn [bind].
  rewrite Hd; cbn [bind]. rewrite Hq; cbn [bind]. rewrite Hdu. reflexivity.
Qed.

(** [X / Y] returns exactly when its steps return, and then the dual of the
    two quotients. *)
Lemma div_dual_dual_returns (X Y : Dual) (v : value) :
  binary_op Div (DualObj X) (DualObj Y) = Return v <->
  exists l r num den q d : number,
    number_op Mult (dual_part X) (real_part Y) = Return l
    /\ number_op Mult (dual_part Y) (real_part X) = Return r
    /\ number_op Sub l r = Return num
    /\ number_op Pow (real_part Y) (Int 2) = Return den
    /\ number_op Div (real_part X) (real_part Y) = Return q
    /\ number_op Div num den = Return d
    /\ v = DualObj (mkDual q d).
Proof.
  split.
  - rewrite div_is_truediv. unfold Dual.__truediv__. intro H.
    destruct (number_op Mult (dual_part X) (real_part Y)) as [l |] eqn:Q1;
      cbn [bind] in H; [| discriminate H].
    destruct (number_op Mult (dual_part Y) (real_part X)) as [r |] eqn:Q2;
      cbn [bind] in H; [| discriminate H].
    destruct (number_op Sub l r) as [num |] eqn:Q3; cbn [bind] in H; [| discriminate H].
    destruct (number_op Pow (real_part Y) (Int 2)) as [den |] eqn:Q4;
      cbn [bind] in H; [| discriminate H].
    destruct (number_op Div (real_part X) (real_part Y)) as [q |] eqn:Q5;
      cbn [bind] in H; [| discriminate H].
    destruct (number_op Div num den) as [d |] eqn:Q6;
      cbn [bind] in H; [| discriminate H].
    injection H as <-.
    exists l, r, num, den, q, d. repeat split; first [assumption | reflexivity].
  - intros (l & r & num & den & q & d & Hl & Hr & Hn & Hd & Hq & Hdu & ->).
    exact (div_dual_dual_steps X Y l r num den q d Hl Hr Hn Hd Hq Hdu).
Qed.

(** [X / Y] on int parts: the numerator and the square are exact, the two
    quotients are rounded. *)
Lemma div_int_duals (a b c d : Z) :
  binary_op Div (DualObj (mkDual (Int a) (Int b))) (DualObj (mkDual (Int c) (Int d)))
  = (q <- int_truediv a c ;;
     r <- int_truediv (b * c - d * a) (c ^ 2) ;;
     Return (DualObj (mkDual (Float q) (Float r)))).
Proof.
  rewrite div_is_truediv. unfold Dual.__truediv__. cbn [real_part dual_part].
  cbn [number_op int_op bind]. change (0 <=? 2)%Z with true. cbn iota.
  cbn [bind].
  destruct (int_truediv a c) as [q | e]; cbn [bind]; [| reflexivity].
  destruct (int_truediv (b * c - d * a) (c ^ 2)); reflexivity.
Qed.

End MachineOperators.

(* ================================================================== *)
(** ** The quotient rule on Python's numbers *)

Section MachineQuotient.
Context {platform : Machine.Platform}.
Import Machine.

(** C6.  [X / Y] returns exactly when Python's operations in
    [X.real_part / Y.real_part] and in
    [(X.dual_part * Y.real_part - Y.dual_part * X.real_part) / Y.real_part ** 2]
    all return, and what it returns then is the dual of these two numbers.
    On int parts with [Y.real_part] not 0 the numerator and the square are
    the exact integers, the two quotients are Python's quotients of ints,
    and nothing but [OverflowError] is raised. *)
Theorem quotient_rule_where_it_returns :
  (forall (X Y : Dual) (v : value),
      binary_op Div (DualObj X) (DualObj Y) = Return v <->
      exists l r num den q d : number,
        number_op Mult (dual_part X) (real_part Y) = Return l
        /\ number_op Mult (dual_part Y) (real_part X) = Return r
        /\ number_op Sub l r = Return num
        /\ number_op Pow (real_part Y) (Int 2) = Return den
        /\ number_op Div (real_part X) (real_part Y) = Return q
        /\ number_op Div num den = Return d
        /\ v = DualObj (mkDual q d))
  /\ (forall a b c d : Z,
      c <> 0%Z ->
      binary_op Div (DualObj (mkDual (Int a) (Int b)))
                    (DualObj (mkDual (Int c) (Int d)))
      = (q <- int_truediv a c ;;
         r <- int_truediv (b * c - d * a) (c ^ 2) ;;
         Return (DualObj (mkDual (Float q) (Float r))))
      /\ forall e : exception,
           binary_op Div (DualObj (mkDual (Int a) (Int b)))
                         (DualObj (mkDual (Int c) (Int d))) = Raise e ->
           e = OverflowError).
Proof.
  split; [exact div_dual_dual_returns |].
  intros a b c d Hc. split; [apply div_int_duals |].
  intros e H. rewrite div_int_duals in H.
  destruct (int_truediv a c) as [q | e1] eqn:E1; cbn [bind] in H.
  - destruct (int_truediv (b * c - d * a) (c ^ 2)) as [r | e2] eqn:E2;
      cbn [bind] in H; [discriminate H |].
    injection H as <-.
    refine (int_truediv_raises _ _ _ _ E2).
    apply Z.pow_nonzero; [exact Hc | lia].
  - injection H as <-. exact (int_truediv_raises _ _ _ Hc E1).
Qed.

(** With real part 0 in the divisor, [X / Y] on int parts raises
    [ZeroDivisionError]. *)
Lemma div_int_duals_by_zero (a b d : Z) :
  binary_op Div (DualObj (mkDual (Int a) (Int b))) (DualObj (mkDual (Int 0) (Int d)))
  = Raise ZeroDivisionError.
Proof. rewrite div_int_duals. reflexivity. Qed.

(** A quotient beyond the range of floats: [Dual(1, 10**400) / Dual(1, 0)]
    raises [OverflowError] on every platform. *)
Lemma div_overflows (X := mkDual (Int 1) (Int (10 ^ 400)))
    (Y := mkDual (Int 1) (Int 0)) :
  binary_op Div (DualObj X) (DualObj Y) = Raise OverflowError.
Proof. subst X Y. rewrite div_int_duals. vm_compute. reflexivity. Qed.

(** On a platform whose [pow] underflows [(2 ** -600) ** 2] to zero,
    [Dual(1.0, 1.0) / Dual(2.0 ** -600, 1.0)] raises [ZeroDivisionError]. *)
Lemma div_underflows (tiny := 0x1p-600%float)
    (X := mkDual (Float 1) (Float 1)) (Y := mkDual (Float tiny) (Float 1)) :
  libm_pow tiny 2 = (0%float, ERANGE) ->
  binary_op Div (DualObj X) (DualObj Y) = Raise ZeroDivisionError.
Proof.
  intro H. subst X Y tiny. rewrite div_is_truediv.
  cbv -[libm_pow]. cbv -[libm_pow] in H. rewrite H. reflexivity.
Qed.

End MachineQuotient.

(** A real part of [Y] that is not 0 does not make [X / Y] return: the real
    part of [Y = Dual(1, 0)] is not 0, and [Dual(1, 10**400) / Y] raises
    [OverflowError]. *)
Lemma quotient_rule_fails_on_large_ints :
  Machine.real_part (Machine.mkDual (Machine.Int 1) (Machine.Int 0)) <> Machine.Int 0
  /\ Machine.binary_op (platform := Machine.no_libm) Div
       (Machine.DualObj (Machine.mkDual (Machine.Int 1) (Machine.Int (10 ^ 400))))
       (Machine.DualObj (Machine.mkDual (Machine.Int 1) (Machine.Int 0)))
     = Raise OverflowError.
Proof.
  split; [discriminate |].
  exact (@div_overflows Machine.no_libm).
Qed.

(** [x / y] on the sample numbers [Dual(4, 3)] and [Dual(5, 7)]: the floats
    nearest to 4/5 and to -13/25. *)
Lemma quotient_rule_at_samples :
  5%Z <> 0%Z
  /\ Machine.binary_op (platform := Machine.no_libm) Div
       (Machine.DualObj Machine.Main.x) (Machine.DualObj Machine.Main.y)
     = Return (Machine.DualObj
                 (Machine.mkDual (Machine.Float 0x1.999999999999ap-1)
                                 (Machine.Float (-0x1.0a3d70a3d70a4p-1)))).
Proof.
  split; [discriminate |].
  destruct (@quotient_rule_where_it_returns Machine.no_libm) as [_ H].
  destruct (H 4 3 5 7 ltac:(discriminate))%Z as [E _].
  exact E.
Defined.

(* ================================================================== *)
(** ** The power rule on Python's numbers *)

(** Zero times a finite float is a zero. *)
Lemma zero_times_finite (p : float) :
  is_finite p = true -> (0 * p =? 0)%float = true.
Proof.
  intro H. unfold is_finite in H.
  apply negb_true_iff, orb_false_elim in H as [Hn Hi].
  rewrite eqb_spec, mul_spec.
  change (Prim2SF 0) with (S754_zero false).
  unfold Prim2SF. rewrite Hn, Hi.
  destruct (is_zero p); [destruct (get_sign p); reflexivity |].
  destruct (Z.frexp p) as [r ex].
  destruct (shr_fexp prec emax _ _ _) as [sh e'].
  destruct (shr_m sh); reflexivity.
Qed.

Section MachinePower.
Context {platform : Machine.Platform}.
Import Machine.

(** [a ** n] step by step: the power, [n * a.dual_part], [n - 1], the second
    power, the product. *)
Lemma pow_dual_steps (a : Dual) (n re l m p du : number) :
  is_int_or_float n = true ->
  number_op Pow (real_part a) n = Return re ->
  number_op Mult n (dual_part a) = Return l ->
  number_op Sub n (Int 1) = Return m ->
  number_op Pow (real_part a) m = Return p ->
  number_op Mult l p = Return du ->
  binary_op Pow (DualObj a) (Num n) = Return (DualObj (mkDual re du)).
Proof.
  intros Hn Hre Hl Hm Hp Hdu.
  rewrite pow_is_pow. unfold Dual.__pow__. rewrite Hn.
  rewrite Hre; cbn [bind]. rewrite Hl; cbn [bind]. rewrite Hm; cbn [bind].
  rewrite Hp; cbn [bind]. rewrite Hdu. reflexivity.
Qed.

(** [a ** n] returns exactly when its steps return, and then the dual of
    the power and the product. *)
Lemma pow_dual_returns (a : Dual) (n : number) (v : value) :
  is_int_or_float n = true ->
  (binary_op Pow (DualObj a) (Num n) = Return v <->
   exists re l m p du : number,
     number_op Pow (real_part a) n = Return re
     /\ number_op Mult n (dual_part a) = Return l
     /\ number_op Sub n (Int 1) = Return m
     /\ number_op Pow (real_part a) m = Return p
     /\ number_op Mult l p = Return du
     /\ v = DualObj (mkDual re du)).
Proof.
  intro Hn. split.
  - rewrite pow_is_pow. unfold Dual.__pow__. rewrite Hn. intro H.
    destruct (number_op Pow (real_part a) n) as [re |] eqn:Q1;
      cbn [bind] in H; [| discriminate H].
    destruct (number_op Mult n (dual_part a)) as [l |] eqn:Q2;
      cbn [bind] in H; [| discriminate H].
    destruct (number_op Sub n (Int 1)) as [m |] eqn:Q3;
      cbn [bind] in H; [| discriminate H].
    destruct (number_op Pow (real_part a) m) as [p |] eqn:Q4;
      cbn [bind] in H; [| discriminate H].
    destruct (number_op Mult l p) as [du |] eqn:Q5;
      cbn [bind] in H; [| discriminate H].
    injection H as <-.
    exists re, l, m, p, du. repeat split; first [assumption | reflexivity].
  - intros (re & l & m & p & du & Hre & Hl & Hm & Hp & Hdu & ->).
    exact (pow_dual_steps a n re l m p du Hn Hre Hl Hm Hp Hdu).
Qed.

(** On int parts and an int exponent at least 1 the power rule is exact. *)
Lemma pow_int_dual (a b n : Z) :
  (1 <= n)%Z ->
  binary_op Pow (DualObj (mkDual (Int a) (Int b))) (Num (Int n))
  = Return (DualObj (mkDual (Int (a ^ n)) (Int (n * b * a ^ (n - 1))))).
Proof.
  intro H.
  apply pow_dual_steps with (l := Int (n * b)) (m := Int (n - 1))
                            (p := Int (a ^ (n - 1))); try reflexivity.
  - apply int_power. lia.
  - apply int_power. lia.
Qed.

Lemma pow_int_dual_one (a b : Z) :
  binary_op Pow (DualObj (mkDual (Int a) (Int b))) (Num (Int 1))
  = Return (DualObj (mkDual (Int a) (Int b))).
Proof.
  rewrite pow_int_dual by lia.
  change (1 - 1)%Z with 0%Z. rewrite Z.pow_1_r, Z.pow_0_r.
  replace (1 * b * 1)%Z with b by lia. reflexivity.
Qed.

(** [X ** 0] on int parts: the real part is 1 and the dual part
    [0 * X.dual_part * X.real_part ** -1], a zero when the power is finite. *)
Lemma pow_int_dual_zero (a b : Z) (p : float) :
  number_op Pow (Int a) (Int (-1)) = Return (Float p) ->
  is_finite p = true ->
  exists z : float,
    binary_op Pow (DualObj (mkDual (Int a) (Int b))) (Num (Int 0))
    = Return (DualObj (mkDual (Int 1) (Float z)))
    /\ (z =? 0)%float = true.
Proof.
  intros Hp Hf. exists (0 * p)%float. split.
  - apply pow_dual_steps with (l := Int 0) (m := Int (-1)) (p := Float p);
      try reflexivity.
    exact Hp.
  - now apply zero_times_finite.
Qed.

(** With real part 0, [X ** 0] on int parts raises: the dual part asks for
    [0 ** -1]. *)
Lemma pow_zero_of_zero (b : Z) :
  binary_op Pow (DualObj (mkDual (Int 0) (Int b))) (Num (Int 0))
  = Raise ZeroDivisionError.
Proof. reflexivity. Qed.

(** With a real part beyond the range of floats, [X ** 0] raises. *)
Lemma pow_zero_of_large (b : Z) :
  binary_op Pow (DualObj (mkDual (Int (10 ^ 400)) (Int b))) (Num (Int 0))
  = Raise OverflowError.
Proof.
  rewrite pow_is_pow. unfold Dual.__pow__.
  cbn [is_int_or_float real_part dual_part].
  rewrite int_power by lia. cbn [bind].
  cbn [number_op int_op bind]. change (0 - 1)%Z with (-1)%Z.
  change (0 <=? -1)%Z with false. cbn iota.
  replace (float_of_int (10 ^ 400)) with (@Raise float OverflowError)
    by (vm_compute; reflexivity).
  reflexivity.
Qed.

(** With a dual part beyond the range of floats and a float real part,
    [X ** 1] raises. *)
Lemma pow_one_of_large_dual_part :
  binary_op Pow (DualObj (mkDual (Float 1) (Int (10 ^ 400)))) (Num (Int 1))
  = Raise OverflowError.
Proof. vm_compute. reflexivity. Qed.

(** C7.  For an int or float [n], [a ** n] returns exactly when Python's
    operations in [a.real_part ** n] and in
    [n * a.dual_part * a.real_part ** (n - 1)] all return, and what it
    returns then is the dual of these two numbers.  On int parts and an
    int exponent [n] at least 1 it always returns, and the parts are the
    exact integers; so [X ** 1] returns [X] for every [X] with int parts.
    [X ** 0] on int parts returns a dual equal to [Dual(1, 0)] whenever
    [X.real_part ** -1] returns a finite float. *)
Theorem power_rule_where_it_returns :
  (forall (a : Dual) (n : number) (v : value),
      is_int_or_float n = true ->
      (binary_op Pow (DualObj a) (Num n) = Return v <->
       exists re l m p du : number,
         number_op Pow (real_part a) n = Return re
         /\ number_op Mult n (dual_part a) = Return l
         /\ number_op Sub n (Int 1) = Return m
         /\ number_op Pow (real_part a) m = Return p
         /\ number_op Mult l p = Return du
         /\ v = DualObj (mkDual re du)))
  /\ (forall a b n : Z,
      (1 <= n)%Z ->
      binary_op Pow (DualObj (mkDual (Int a) (Int b))) (Num (Int n))
      = Return (DualObj (mkDual (Int (a ^ n)) (Int (n * b * a ^ (n - 1))))))
  /\ (forall a b : Z,
      binary_op Pow (DualObj (mkDual (Int a) (Int b))) (Num (Int 1))
      = Return (DualObj (mkDual (Int a) (Int b))))
  /\ (forall (a b : Z) (p : float),
      number_op Pow (Int a) (Int (-1)) = Return (Float p) ->
      is_finite p = true ->
      exists z : float,
        binary_op Pow (DualObj (mkDual (Int a) (Int b))) (Num (Int 0))
        = Return (DualObj (mkDual (Int 1) (Float z)))
        /\ (z =? 0)%float = true).
Proof.
  split; [exact pow_dual_returns |].
  split; [exact pow_int_dual |].
  split; [exact pow_int_dual_one | exact pow_int_dual_zero].
Qed.

End MachinePower.

(** [a ** n] does not return for every [a] and [n]: [Dual(0, 3) ** 0]
    raises [ZeroDivisionError]; [Dual(10**400, 1) ** 0], whose real part is
    not 0, raises [OverflowError]; and [Dual(1.0, 10**400) ** 1] raises
    [OverflowError]. *)
Lemma power_rule_fails_at_zero :
  Machine.binary_op (platform := Machine.no_libm) Pow
    (Machine.DualObj (Machine.mkDual (Machine.Int 0) (Machine.Int 3)))
    (Machine.Num (Machine.Int 0))
  = Raise ZeroDivisionError
  /\ Machine.Int (10 ^ 400) <> Machine.Int 0
  /\ Machine.binary_op (platform := Machine.no_libm) Pow
       (Machine.DualObj (Machine.mkDual (Machine.Int (10 ^ 400)) (Machine.Int 1)))
       (Machine.Num (Machine.Int 0))
     = Raise OverflowError
  /\ Machine.binary_op (platform := Machine.no_libm) Pow
       (Machine.DualObj (Machine.mkDual (Machine.Float 1) (Machine.Int (10 ^ 400))))
       (Machine.Num (Machine.Int 1))
     = Raise OverflowError.
Proof.
  split; [exact (@pow_zero_of_zero Machine.no_libm 3) |].
  split; [intro H; injection H as H; vm_compute in H; discriminate H |].
  split; [exact (@pow_zero_of_large Machine.no_libm 1) |].
  exact (@pow_one_of_large_dual_part Machine.no_libm).
Qed.

(** The power rule at [x ** 2] for [x = Dual(4, 3)] and at
    [Dual(1, 3) ** 0]. *)
Lemma power_rule_at_samples :
  (1 <= 2)%Z
  /\ Machine.binary_op (platform := Machine.no_libm) Pow
       (Machine.DualObj Machine.Main.x) (Machine.Num (Machine.Int 2))
     = Return (Machine.DualObj (Machine.mkDual (Machine.Int 16) (Machine.Int 24)))
  /\ Machine.number_op (platform := Machine.no_libm) Pow
       (Machine.Int 1) (Machine.Int (-1)) = Return (Machine.Float 1)
  /\ is_finite 1 = true
  /\ exists z : float,
       Machine.binary_op (platform := Machine.no_libm) Pow
         (Machine.DualObj (Machine.mkDual (Machine.Int 1) (Machine.Int 3)))
         (Machine.Num (Machine.Int 0))
       = Return (Machine.DualObj (Machine.mkDual (Machine.Int 1) (Machine.Float z)))
       /\ (z =? 0)%float = true.
Proof.
  destruct (@power_rule_where_it_returns Machine.no_libm) as [_ [Hn [_ H0]]].
  split; [lia |].
  split; [exact (Hn 4 3 2 ltac:(lia))%Z |].
  split; [reflexivity |].
  split; [reflexivity |].
  exact (H0 1%Z 3%Z 1%float eq_refl eq_refl).
Defined.

(* ================================================================== *)
(** ** Duals with int parts *)

(** The dual with the int parts [a] and [b], as an object. *)
Abbreviation dual a b := (Machine.DualObj (Machine.mkDual (Machine.Int a) (Machine.Int b))).

Section MachineInts.
Context {platform : Machine.Platform}.
Import Machine.

Lemma add_int_duals (a b c d : Z) :
  binary_op Add (dual a b) (dual c d) = Return (dual (a + c) (b + d)).
Proof. reflexivity. Qed.

Lemma sub_int_duals (a b c d : Z) :
  binary_op Sub (dual a b) (dual c d) = Return (dual (a - c) (b - d)).
Proof. reflexivity. Qed.

Lemma mul_int_duals (a b c d : Z) :
  binary_op Mult (dual a b) (dual c d) = Return (dual (a * c) (b + d)).
Proof. reflexivity. Qed.

Lemma add_int_dual_int (a b c : Z) :
  binary_op Add (dual a b) (Num (Int c)) = Return (dual (a + c) b).
Proof. reflexivity. Qed.

Lemma sub_int_dual_int (a b c : Z) :
  binary_op Sub (dual a b) (Num (Int c)) = Return (dual (a - c) b).
Proof. reflexivity. Qed.

Lemma mul_int_dual_int (a b c : Z) :
  binary_op Mult (dual a b) (Num (Int c)) = Return (dual (a * c) (b * c)).
Proof. reflexivity. Qed.

Lemma add_int_int_dual (a b c : Z) :
  binary_op Add (Num (Int c)) (dual a b) = Return (dual (a + c) b).
Proof. reflexivity. Qed.

Lemma mul_int_int_dual (a b c : Z) :
  binary_op Mult (Num (Int c)) (dual a b) = Return (dual (a * c) (b * c)).
Proof. reflexivity. Qed.

Lemma int_dual_eq (a b c d : Z) :
  a = c -> b = d -> @Return value (dual a b) = Return (dual c d).
Proof. now intros -> ->. Qed.

(** X1.  On duals with int parts and int numbers, subtraction undoes
    addition and addition undoes subtraction: [(X + Y) - Y], [(X - Y) + Y],
    [(X + c) - c] and [(X - c) + c] all return [X]. *)
Theorem int_add_sub_round_trip (a b c d n : Z) :
  (s <- binary_op Add (dual a b) (dual c d) ;; binary_op Sub s (dual c d))
    = Return (dual a b)
  /\ (s <- binary_op Sub (dual a b) (dual c d) ;; binary_op Add s (dual c d))
    = Return (dual a b)
  /\ (s <- binary_op Add (dual a b) (Num (Int n)) ;; binary_op Sub s (Num (Int n)))
    = Return (dual a b)
  /\ (s <- binary_op Sub (dual a b) (Num (Int n)) ;; binary_op Add s (Num (Int n)))
    = Return (dual a b).
Proof.
  rewrite add_int_duals, sub_int_duals, add_int_dual_int, sub_int_dual_int.
  cbn [bind].
  rewrite sub_int_duals, add_int_duals, sub_int_dual_int, add_int_dual_int.
  repeat split; apply int_dual_eq; lia.
Qed.

(** X2.  On duals with int parts addition is associative, [Dual(0, 0)] and
    the int 0 are neutral for it on either side, and [X - X] returns
    [Dual(0, 0)]. *)
Theorem int_add_associative_with_zero (a b c d e f : Z) :
  (s <- binary_op Add (dual a b) (dual c d) ;; binary_op Add s (dual e f))
    = (t <- binary_op Add (dual c d) (dual e f) ;; binary_op Add (dual a b) t)
  /\ binary_op Add (dual a b) (dual 0 0) = Return (dual a b)
  /\ binary_op Add (dual 0 0) (dual a b) = Return (dual a b)
  /\ binary_op Add (dual a b) (Num (Int 0)) = Return (dual a b)
  /\ binary_op Add (Num (Int 0)) (dual a b) = Return (dual a b)
  /\ binary_op Sub (dual a b) (dual a b) = Return (dual 0 0).
Proof.
  rewrite !add_int_duals, add_int_dual_int, add_int_int_dual, sub_int_duals.
  cbn [bind]. rewrite !add_int_duals.
  repeat split; apply int_dual_eq; lia.
Qed.

(** X3.  A linear combination with int numbers of duals with int parts is
    taken part by part: [m * X + n * Y] returns
    [Dual(m * X.real_part + n * Y.real_part, m * X.dual_part + n * Y.dual_part)]. *)
Theorem int_linear_combination (m n a b c d : Z) :
  (u <- binary_op Mult (Num (Int m)) (dual a b) ;;
   v <- binary_op Mult (Num (Int n)) (dual c d) ;;
   binary_op Add u v)
  = Return (dual (m * a + n * c) (m * b + n * d)).
Proof.
  rewrite !mul_int_int_dual. cbn [bind]. rewrite add_int_duals.
  apply int_dual_eq; lia.
Qed.

(** X6.  On duals with int parts, [X / Y] raises [ZeroDivisionError] exactly
    when the real part of [Y] is 0; so does [X / c] for an int [c] exactly
    when [c] is 0.  Whatever else they raise is [OverflowError]. *)
Theorem int_division_raises (a b c d : Z) (e : exception) :
  (binary_op Div (dual a b) (dual c d) = Raise ZeroDivisionError <-> c = 0%Z)
  /\ (binary_op Div (dual a b) (Num (Int c)) = Raise ZeroDivisionError <-> c = 0%Z)
  /\ (binary_op Div (dual a b) (dual c d) = Raise e ->
      e = ZeroDivisionError \/ e = OverflowError)
  /\ (binary_op Div (dual a b) (Num (Int c)) = Raise e ->
      e = ZeroDivisionError \/ e = OverflowError).
Proof.
  assert (S : binary_op Div (dual a b) (Num (Int c))
              = (q <- int_truediv a c ;; Return (DualObj (mkDual (Float q) (Int b))))).
  { rewrite div_is_truediv. cbn.
    destruct (int_truediv a c); reflexivity. }
  rewrite S, div_int_duals.
  destruct (Z.eq_dec c 0) as [-> | Hc].
  - cbn. repeat split; auto; intro H; injection H as <-; auto.
  - assert (Hc2 : (c ^ 2)%Z <> 0%Z) by (apply Z.pow_nonzero; [exact Hc | lia]).
    repeat split; try (intro; contradiction).
    + intro H. exfalso.
      destruct (int_truediv a c) as [q | e1] eqn:E1; cbn [bind] in H.
      * destruct (int_truediv (b * c - d * a) (c ^ 2)) as [r | e2] eqn:E2;
          cbn [bind] in H; [discriminate H |].
        injection H as ->. now apply int_truediv_raises in E2.
      * injection H as ->. now apply int_truediv_raises in E1.
    + intro H. exfalso.
      destruct (int_truediv a c) as [q | e1] eqn:E1; cbn [bind] in H;
        [discriminate H |].
      injection H as ->. now apply int_truediv_raises in E1.
    + intro H. right.
      destruct (int_truediv a c) as [q | e1] eqn:E1; cbn [bind] in H.
      * destruct (int_truediv (b * c - d * a) (c ^ 2)) as [r | e2] eqn:E2;
          cbn [bind] in H; [discriminate H |].
        injection H as <-. now apply int_truediv_raises in E2.
      * injection H as <-. now apply int_truediv_raises in E1.
    + intro H. right.
      destruct (int_truediv a c) as [q | e1] eqn:E1; cbn [bind] in H;
        [discriminate H |].
      injection H as <-. now apply int_truediv_raises in E1.
Qed.

(** X9.  On a dual with int parts, powers by ints at least 1 compose:
    [(X ** m) ** n] returns what [X ** (m * n)] returns. *)
Theorem int_power_of_power (a b m n : Z) :
  (1 <= m)%Z -> (1 <= n)%Z ->
  (Y <- binary_op Pow (dual a b) (Num (Int m)) ;; binary_op Pow Y (Num (Int n)))
  = binary_op Pow (dual a b) (Num (Int (m * n))).
Proof.
  intros Hm Hn.
  rewrite (pow_int_dual a b m Hm), (pow_int_dual a b (m * n)) by nia.
  cbn [bind]. rewrite pow_int_dual by exact Hn.
  apply int_dual_eq.
  - symmetry. apply Z.pow_mul_r; lia.
  - rewrite <- (Z.pow_mul_r a m (n - 1)) by lia.
    replace (n * (m * b * a ^ (m - 1)) * a ^ (m * (n - 1)))%Z
      with (m * n * b * (a ^ (m - 1) * a ^ (m * (n - 1))))%Z by ring.
    rewrite <- Z.pow_add_r by nia.
    do 2 f_equal. ring.
Qed.

(** X15.  Int factors of a dual with int parts compose: [(X * m) * n]
    returns what [X * (m * n)] returns, and [X * 1] returns [X]. *)
Theorem int_factors_compose (a b m n : Z) :
  (Y <- binary_op Mult (dual a b) (Num (Int m)) ;; binary_op Mult Y (Num (Int n)))
    = binary_op Mult (dual a b) (Num (Int (m * n)))
  /\ binary_op Mult (dual a b) (Num (Int 1)) = Return (dual a b).
Proof.
  rewrite !mul_int_dual_int. cbn [bind]. rewrite mul_int_dual_int.
  split; apply int_dual_eq; lia.
Qed.

End MachineInts.

(* ================================================================== *)
(** ** The helper on polynomial expressions *)

Section MachineHelper.
Context {platform : Machine.Platform}.
Import Machine.

(** The helper returns the two parts of what the function returns on the
    seed [Dual(point, 1)], and prints one line. *)
Lemma machine_helper_on_dual (f : GeneralFunction) (point : number)
    (stdout : list printed) (r : Dual) :
  function f (DualObj (mkDual point (Int 1))) = Return (DualObj r) ->
  value_and_derivative_at_point f point stdout =
  (Return (real_part r, dual_part r),
   (stdout ++ [mkPrinted f point (real_part r) (dual_part r)])%list).
Proof.
  intro H. unfold value_and_derivative_at_point. rewrite H. reflexivity.
Qed.

(** What the helper returns comes from a dual that the function returned. *)
Lemma machine_helper_returns (f : GeneralFunction) (p v d : number)
    (out out' : list printed) :
  value_and_derivative_at_point f p out = (Return (v, d), out') ->
  function f (DualObj (mkDual p (Int 1))) = Return (DualObj (mkDual v d)).
Proof.
  unfold value_and_derivative_at_point. intro H.
  destruct (function f (DualObj (mkDual p (Int 1))))
    as [[c | [re du] | | msg] | ex]; cbn in H; try discriminate H.
  injection H as <- <- _. reflexivity.
Qed.

(** An int constant returns the int it denotes, whatever [x] is bound to,
    and its derivative is zero. *)
Lemma eval_int_constant (e : expr) (x : value) (p : Z) :
  int_constant e = true ->
  eval e x = Return (Num (Int (value_at e p))) /\ derivative_at e p = 0%Z.
Proof.
  induction e as [| c | a IHa op b IHb]; intro H; try discriminate H.
  - destruct c; try discriminate H. split; reflexivity.
  - cbn [int_constant] in H.
    apply andb_prop in H as [H Hop]. apply andb_prop in H as [Ha Hb].
    destruct (IHa Ha) as [Ea Da], (IHb Hb) as [Eb Db].
    cbn [eval derivative_at value_at]. rewrite Ea, Eb, Da, Db. cbn [bind].
    destruct op; try discriminate Hop; split; try reflexivity; lia.
Qed.

(** A polynomial expression on a dual with int parts returns the dual of its
    value and of its derivative times the dual part. *)
Lemma eval_polynomial (e : expr) (p d : Z) :
  polynomial e = true ->
  eval e (dual p d) = Return (dual (value_at e p) (derivative_at e p * d)).
Proof.
  induction e as [| c | a IHa op b IHb]; intro H; try discriminate H.
  - cbn [eval value_at derivative_at]. apply int_dual_eq; lia.
  - cbn [eval value_at derivative_at].
    destruct op; cbn [polynomial] in H; try discriminate H.
    + (* + *)
      apply orb_prop in H as [H | H]; apply andb_prop in H as [Ha Hb].
      * rewrite (IHa Ha); cbn [bind].
        apply orb_prop in Hb as [Hb | Hb].
        -- rewrite (IHb Hb); cbn [bind]. rewrite add_int_duals.
           apply int_dual_eq; lia.
        -- destruct (eval_int_constant b (dual p d) p Hb) as [Eb Db].
           rewrite Eb, Db; cbn [bind]. rewrite add_int_dual_int.
           apply int_dual_eq; lia.
      * destruct (eval_int_constant a (dual p d) p Ha) as [Ea Da].
        rewrite Ea, Da, (IHb Hb); cbn [bind]. rewrite add_int_int_dual.
        apply int_dual_eq; lia.
    + (* - *)
      apply andb_prop in H as [Ha Hb].
      rewrite (IHa Ha); cbn [bind].
      apply orb_prop in Hb as [Hb | Hb].
      * rewrite (IHb Hb); cbn [bind]. rewrite sub_int_duals.
        apply int_dual_eq; lia.
      * destruct (eval_int_constant b (dual p d) p Hb) as [Eb Db].
        rewrite Eb, Db; cbn [bind]. rewrite sub_int_dual_int.
        apply int_dual_eq; lia.
    + (* * *)
      apply orb_prop in H as [H | H]; apply andb_prop in H as [Ha Hb].
      * destruct (eval_int_constant b (dual p d) p Hb) as [Eb Db].
        rewrite (IHa Ha), Eb, Db; cbn [bind]. rewrite mul_int_dual_int.
        apply int_dual_eq; ring.
      * destruct (eval_int_constant a (dual p d) p Ha) as [Ea Da].
        rewrite Ea, Da, (IHb Hb); cbn [bind]. rewrite mul_int_int_dual.
        apply int_dual_eq; ring.
    + (* ** *)
      apply andb_prop in H as [Ha Hb].
      destruct b as [| [n | |] |]; try discriminate Hb.
      apply Z.leb_le in Hb.
      rewrite (IHa Ha); cbn [eval bind value_at literal].
      rewrite pow_int_dual by exact Hb.
      apply int_dual_eq; ring.
Qed.

(** The helper on a polynomial definition at an int point. *)
Lemma helper_on_polynomial (e : expr) (p : Z) (stdout : list printed) :
  polynomial e = true ->
  value_and_derivative_at_point (mkGeneralFunction e) (Int p) stdout =
  (Return (Int (value_at e p), Int (derivative_at e p)),
   (stdout ++ [mkPrinted (mkGeneralFunction e) (Int p)
                 (Int (value_at e p)) (Int (derivative_at e p))])%list).
Proof.
  intro H.
  rewrite (machine_helper_on_dual (mkGeneralFunction e) (Int p) stdout
             (mkDual (Int (value_at e p)) (Int (derivative_at e p)))).
  - reflexivity.
  - unfold function. cbn [definition].
    rewrite (eval_polynomial e p 1 H). apply int_dual_eq; lia.
Qed.

(** X11.  On a polynomial definition (built from [x] and int constants with
    [+], [-] with the constant on the right, [*] by an int constant, and
    [**] by an int literal at least 1) and an int point, the helper returns
    the value of the polynomial and its derivative by the rules of calculus,
    both as exact ints, and prints them. *)
Theorem helper_differentiates_polynomials (e : expr) (p : Z) (stdout : list printed) :
  polynomial e = true ->
  value_and_derivative_at_point (mkGeneralFunction e) (Int p) stdout =
  (Return (Int (value_at e p), Int (derivative_at e p)),
   (stdout ++ [mkPrinted (mkGeneralFunction e) (Int p)
                 (Int (value_at e p)) (Int (derivative_at e p))])%list).
Proof. exact (helper_on_polynomial e p stdout). Qed.

(** The value and the derivative of a composed expression. *)
Lemma value_at_substitute (f g : expr) (p : Z) :
  value_at (substitute f g) p = value_at f (value_at g p).
Proof.
  induction f as [| c | a IHa op b IHb]; cbn [substitute value_at];
    try reflexivity.
  rewrite IHa, IHb. reflexivity.
Qed.

Lemma derivative_at_substitute (f g : expr) (p : Z) :
  derivative_at (substitute f g) p
  = (derivative_at f (value_at g p) * derivative_at g p)%Z.
Proof.
  induction f as [| c | a IHa op b IHb]; cbn [substitute derivative_at].
  - lia.
  - reflexivity.
  - rewrite IHa, IHb, !value_at_substitute. destruct op; ring.
Qed.

Lemma substitute_int_constant (f g : expr) :
  int_constant f = true -> substitute f g = f.
Proof.
  induction f as [| c | a IHa op b IHb]; intro H; try discriminate H.
  - reflexivity.
  - cbn [int_constant] in H.
    apply andb_prop in H as [H _]. apply andb_prop in H as [Ha Hb].
    cbn [substitute]. now rewrite IHa, IHb.
Qed.

Lemma polynomial_substitute (f g : expr) :
  polynomial f = true -> polynomial g = true ->
  polynomial (substitute f g) = true.
Proof.
  intros Hf Hg.
  induction f as [| c | a IHa op b IHb]; try discriminate Hf.
  - exact Hg.
  - cbn [substitute polynomial].
    destruct op; cbn [polynomial] in Hf; try discriminate Hf.
    + apply orb_prop in Hf as [H | H]; apply andb_prop in H as [Ha Hb].
      * rewrite (IHa Ha). apply orb_prop in Hb as [Hb | Hb].
        -- now rewrite (IHb Hb).
        -- rewrite (substitute_int_constant b g Hb), Hb.
           now rewrite orb_true_r.
      * rewrite (substitute_int_constant a g Ha), Ha, (IHb Hb).
        now rewrite orb_true_r.
    + apply andb_prop in Hf as [Ha Hb].
      rewrite (IHa Ha). apply orb_prop in Hb as [Hb | Hb].
      * now rewrite (IHb Hb).
      * rewrite (substitute_int_constant b g Hb), Hb. now rewrite orb_true_r.
    + apply orb_prop in Hf as [H | H]; apply andb_prop in H as [Ha Hb].
      * now rewrite (IHa Ha), (substitute_int_constant b g Hb), Hb.
      * rewrite (substitute_int_constant a g Ha), Ha, (IHb Hb).
        now rewrite orb_true_r.
    + apply andb_prop in Hf as [Ha Hb].
      rewrite (IHa Ha).
      destruct b as [| [n | |] |]; try discriminate Hb. exact Hb.
Qed.

(** X14.  The chain rule on polynomial definitions at an int point: for
    the expression [f] with the expression [g], in parentheses, in the place
    of [x], the helper returns the value of [f] at the value of [g], and the
    derivative the helper returns for [f] at the value of [g] times the one
    it returns for [g]. *)
Theorem helper_chain_rule_on_polynomials (f g : expr) (p : Z) (stdout : list printed) :
  polynomial f = true -> polynomial g = true ->
  exists vg dg vf df : Z,
    fst (value_and_derivative_at_point (mkGeneralFunction g) (Int p) stdout)
      = Return (Int vg, Int dg)
    /\ fst (value_and_derivative_at_point (mkGeneralFunction f) (Int vg) stdout)
      = Return (Int vf, Int df)
    /\ fst (value_and_derivative_at_point
              (mkGeneralFunction (substitute f g)) (Int p) stdout)
      = Return (Int vf, Int (df * dg)).
Proof.
  intros Hf Hg.
  exists (value_at g p), (derivative_at g p),
    (value_at f (value_at g p)), (derivative_at f (value_at g p)).
  rewrite !helper_on_polynomial
    by (try apply polynomial_substitute; assumption).
  cbn [fst].
  rewrite value_at_substitute, derivative_at_substitute.
  repeat split.
Qed.

End MachineHelper.

(* ================================================================== *)
(** ** The helper on arithmetic expressions *)

(** IEEE addition and multiplication commute. *)
Lemma SFadd_comm (x y : spec_float) : SFadd prec emax x y = SFadd prec emax y x.
Proof.
  destruct x as [sx | sx | | sx mx ex], y as [sy | sy | | sy my ey];
    try reflexivity; try (destruct sx, sy; reflexivity).
  cbn [SFadd]. cbv zeta. rewrite (Z.min_comm ey ex). f_equal. apply Z.add_comm.
Qed.

Lemma SFmul_comm (x y : spec_float) : SFmul prec emax x y = SFmul prec emax y x.
Proof.
  destruct x as [sx | sx | | sx mx ex], y as [sy | sy | | sy my ey];
    try reflexivity; cbn [SFmul]; try (now rewrite xorb_comm).
  now rewrite xorb_comm, Pos.mul_comm, Z.add_comm.
Qed.

Lemma float_add_comm (a b : float) : (a + b)%float = (b + a)%float.
Proof. apply Prim2SF_inj. rewrite !add_spec. apply SFadd_comm. Qed.

Lemma float_mul_comm (a b : float) : (a * b)%float = (b * a)%float.
Proof. apply Prim2SF_inj. rewrite !mul_spec. apply SFmul_comm. Qed.

Section MachineExpressions.
Context {platform : Machine.Platform}.
Import Machine.

(** Destructs the first call of a chain [x <- r ;; k] that returned. *)
Ltac returned H :=
  match type of H with
  | bind ?r _ = Return _ =>
      let E := fresh "E" in
      destruct r eqn:E; cbn [bind] in H; [| discriminate H]
  end.

(** The operators by the method they reach. *)
Lemma binary_op_dual_left (op : operator) (A : Dual) (r : value) :
  binary_op op (DualObj A) r =
  match op with
  | Add => Dual.__add__ A r
  | Sub => Dual.__sub__ A r
  | Mult => Dual.__mul__ A r
  | Div => Dual.__truediv__ A r
  | Pow => Dual.__pow__ A r
  end.
Proof. destruct op; reflexivity. Qed.

Lemma binary_op_number_dual (op : operator) (c : number) (B : Dual) :
  binary_op op (Num c) (DualObj B) =
  match op with
  | Add => Dual.__radd__ B (Num c)
  | Sub => Dual.__rsub__ B (Num c)
  | Mult => Dual.__rmul__ B (Num c)
  | Div | Pow => Raise TypeError
  end.
Proof. destruct op; reflexivity. Qed.

Lemma binary_op_numbers (op : operator) (a b : number) :
  binary_op op (Num a) (Num b) = (c <- number_op op a b ;; Return (Num c)).
Proof. reflexivity. Qed.

(** An operator with a dual on the left returns a dual or an instance of
    [NotImplementedError]. *)
Lemma dual_left_result (op : operator) (A : Dual) (r v : value) :
  binary_op op (DualObj A) r = Return v ->
  match v with
  | DualObj _ | NotImplementedErrorObj _ => True
  | _ => False
  end.
Proof.
  rewrite binary_op_dual_left. intro H.
  destruct op, r as [c | B | | msg];
    cbv beta delta [Dual.__add__ Dual.__sub__ Dual.__mul__ Dual.__truediv__
                    Dual.__pow__] in H; cbv iota in H;
    try (injection H as <-; exact I);
    try (destruct (is_int_or_float c); [| injection H as <-; exact I]);
    repeat returned H; injection H as <-; exact I.
Qed.

(** So does an operator with a number on the left and a dual on the right. *)
Lemma number_dual_result (op : operator) (c : number) (B : Dual) (v : value) :
  binary_op op (Num c) (DualObj B) = Return v ->
  match v with
  | DualObj _ | NotImplementedErrorObj _ => True
  | _ => False
  end.
Proof.
  rewrite binary_op_number_dual. intro H.
  destruct op; try discriminate H;
    cbv beta delta [Dual.__radd__ Dual.__rsub__ Dual.__rmul__
                    Dual.__add__ Dual.__sub__ Dual.__mul__] in H; cbv iota in H;
    (destruct (is_int_or_float c); [| injection H as <-; exact I]);
    repeat returned H; injection H as <-; exact I.
Qed.

(** An operator returns a number only on two numbers. *)
Lemma number_result_operands (op : operator) (l r : value) (c : number) :
  binary_op op l r = Return (Num c) ->
  exists a b, l = Num a /\ r = Num b /\ number_op op a b = Return c.
Proof.
  intro H.
  destruct l as [a | A | | ml].
  - destruct r as [b | B | | mr]; try discriminate H.
    + exists a, b. rewrite binary_op_numbers in H.
      destruct (number_op op a b) as [c' |]; cbn [bind] in H; [| discriminate H].
      injection H as ->. auto.
    + now apply number_dual_result in H.
  - now apply dual_left_result in H.
  - destruct r as [b | B | | mr]; try discriminate H.
    destruct op; discriminate H.
  - destruct r as [b | B | | mr]; try discriminate H.
    destruct op; discriminate H.
Qed.

(** An operator returns a number or a dual only on numbers and duals. *)
Lemma machine_numeric_result_operands (op : operator) (l r v : value) :
  binary_op op l r = Return v ->
  is_numeric v = true ->
  is_numeric l = true /\ is_numeric r = true.
Proof.
  intros H Hv.
  destruct l as [a | A | | ml], r as [b | B | | mr];
    try (split; reflexivity);
    destruct op; try discriminate H;
    injection H as <-; discriminate Hv.
Qed.

(** An expression that does not name [x] returns a number or raises. *)
Lemma eval_without_x (e : expr) (x : value) :
  mentions_x e = false ->
  (exists n, eval e x = Return (Num n)) \/ (exists ex, eval e x = Raise ex).
Proof.
  induction e as [| c | a IHa op b IHb]; intro H; try discriminate H.
  - left. now exists c.
  - cbn [mentions_x] in H. apply orb_false_elim in H as [Ha Hb].
    cbn [eval].
    destruct (IHa Ha) as [[u ->] | [ex ->]]; [| right; now exists ex].
    destruct (IHb Hb) as [[v ->] | [ex ->]]; [| right; now exists ex].
    cbn [bind]. rewrite binary_op_numbers.
    destruct (number_op op u v) as [c | ex].
    + left. now exists c.
    + right. now exists ex.
Qed.

Lemma int_constant_without_x (e : expr) :
  int_constant e = true -> mentions_x e = false.
Proof.
  induction e as [| c | a IHa op b IHb]; intro H; try discriminate H.
  - reflexivity.
  - cbn [int_constant] in H.
    apply andb_prop in H as [H _]. apply andb_prop in H as [Ha Hb].
    cbn [mentions_x]. now rewrite (IHa Ha), (IHb Hb).
Qed.

(** X13.  For a definition that is an arithmetic expression (numeric
    literals and the operators [+], [-], [*], [/], [**]) and does not name
    [x], the helper raises and prints nothing; when the expression is built
    from int literals with [+], [-] and [*], what it raises is
    [AttributeError]. *)
Theorem helper_raises_without_x (e : expr) (p : number) (stdout : list printed) :
  mentions_x e = false ->
  (exists ex,
      value_and_derivative_at_point (mkGeneralFunction e) p stdout
      = (Raise ex, stdout))
  /\ (int_constant e = true ->
      value_and_derivative_at_point (mkGeneralFunction e) p stdout
      = (Raise AttributeError, stdout)).
Proof.
  intro H. split.
  - unfold value_and_derivative_at_point, function. cbn [definition].
    destruct (eval_without_x e (DualObj (mkDual p (Int 1))) H) as [[n ->] | [ex ->]].
    + now exists AttributeError.
    + now exists ex.
  - intro Hc. unfold value_and_derivative_at_point, function. cbn [definition].
    destruct (eval_int_constant e (DualObj (mkDual p (Int 1))) 0 Hc) as [-> _].
    reflexivity.
Qed.

(** When an expression returns a number or a dual, so did everything it is
    built from. *)
Lemma numeric_subexpressions (e : expr) (x v : value) :
  eval e x = Return v ->
  is_numeric v = true ->
  forall s, In s (subexpressions e) ->
  exists w, eval s x = Return w /\ is_numeric w = true.
Proof.
  revert v. induction e as [| c | a IHa op b IHb]; intros v H Hv s Hs.
  - destruct Hs as [<- | []]. now exists v.
  - destruct Hs as [<- | []]. now exists v.
  - cbn [subexpressions] in Hs. destruct Hs as [<- | Hs]; [now exists v |].
    cbn [eval] in H.
    destruct (eval a x) as [l |]; cbn [bind] in H; [| discriminate H].
    destruct (eval b x) as [r |]; cbn [bind] in H; [| discriminate H].
    destruct (machine_numeric_result_operands op l r v H Hv) as [Hl Hr].
    apply in_app_or in Hs as [Hs | Hs].
    + exact (IHa l eq_refl Hl s Hs).
    + exact (IHb r eq_refl Hr s Hs).
Qed.

(** X17.  For a definition that is an arithmetic expression ([x], numeric
    literals and the operators [+], [-], [*], [/], [**]), the helper returns
    only when every expression the definition is built from returned a
    number or a dual on the seed: an instance of [NotImplementedError] that
    an operator returned is never passed over in silence. *)
Theorem helper_returns_only_on_numeric_parts (e : expr) (p v d : number)
    (out out' : list printed) :
  value_and_derivative_at_point (mkGeneralFunction e) p out = (Return (v, d), out') ->
  forall s, In s (subexpressions e) ->
  exists w, eval s (DualObj (mkDual p (Int 1))) = Return w /\ is_numeric w = true.
Proof.
  intros H s Hs. apply machine_helper_returns in H.
  exact (numeric_subexpressions e _ _ H eq_refl s Hs).
Qed.

(** [+] and [*] on numbers commute. *)
Lemma number_op_comm (op : operator) (a b : number) :
  complex_commutes -> op = Add \/ op = Mult ->
  number_op op a b = number_op op b a.
Proof.
  intros C Hop. destruct (C a b) as [CA CM].
  destruct a as [x | x | xr xi], b as [y | y | yr yi];
    destruct Hop as [-> | ->]; cbn [number_op int_op float_op];
    try assumption.
  - now rewrite Z.add_comm.
  - now rewrite Z.mul_comm.
  - destruct (float_of_int x); cbn [bind]; [| reflexivity].
    now rewrite float_add_comm.
  - destruct (float_of_int x); cbn [bind]; [| reflexivity].
    now rewrite float_mul_comm.
  - destruct (float_of_int y); cbn [bind]; [| reflexivity].
    now rewrite float_add_comm.
  - destruct (float_of_int y); cbn [bind]; [| reflexivity].
    now rewrite float_mul_comm.
  - now rewrite float_add_comm.
  - now rewrite float_mul_comm.
Qed.

(** X18.  On two duals with parts of any kind [+] and [*] commute, rounding
    and exceptions included: [X + Y] and [Y + X] return the same dual or
    raise the same exception, and so do [X * Y] and [Y * X].  Should a part
    be complex, the [+] and [*] of complex numbers are taken to commute. *)
Theorem sum_and_product_commute (X Y : Dual) :
  complex_commutes ->
  binary_op Add (DualObj X) (DualObj Y) = binary_op Add (DualObj Y) (DualObj X)
  /\ binary_op Mult (DualObj X) (DualObj Y) = binary_op Mult (DualObj Y) (DualObj X).
Proof.
  intro C. rewrite !binary_op_dual_left.
  unfold Dual.__add__, Dual.__mul__.
  rewrite (number_op_comm Add (real_part X) (real_part Y) C) by auto.
  rewrite (number_op_comm Add (dual_part X) (dual_part Y) C) by auto.
  rewrite (number_op_comm Mult (real_part X) (real_part Y) C) by auto.
  split; reflexivity.
Qed.

(** With a dual on the left, the real part of the dual an operator returns
    is what the operator gives on the real parts. *)
Lemma real_part_dual_dual (op : operator) (A B r : Dual) :
  binary_op op (DualObj A) (DualObj B) = Return (DualObj r) ->
  number_op op (real_part A) (real_part B) = Return (real_part r).
Proof.
  rewrite binary_op_dual_left. intro H.
  destruct op;
    cbv beta delta [Dual.__add__ Dual.__sub__ Dual.__mul__ Dual.__truediv__
                    Dual.__pow__] in H; cbv iota in H;
    try discriminate H;
    repeat returned H; injection H as <-; cbn [real_part];
    first [assumption | reflexivity].
Qed.

Lemma real_part_dual_number (op : operator) (A r : Dual) (c : number) :
  binary_op op (DualObj A) (Num c) = Return (DualObj r) ->
  number_op op (real_part A) c = Return (real_part r).
Proof.
  rewrite binary_op_dual_left. intro H.
  destruct op;
    cbv beta delta [Dual.__add__ Dual.__sub__ Dual.__mul__ Dual.__truediv__
                    Dual.__pow__] in H; cbv iota in H;
    (destruct (is_int_or_float c); [| discriminate H]);
    repeat returned H; injection H as <-; cbn [real_part];
    first [assumption | reflexivity].
Qed.

(** With the number on the left the same holds for [+] and [*]; [-] is the
    one operator that returns a dual there with another real part. *)
Lemma real_part_number_dual (op : operator) (B r : Dual) (c : number) :
  complex_commutes ->
  binary_op op (Num c) (DualObj B) = Return (DualObj r) ->
  op <> Sub ->
  number_op op c (real_part B) = Return (real_part r).
Proof.
  intros C H Hop. rewrite binary_op_number_dual in H.
  destruct op; try discriminate H; try contradiction;
    cbv beta delta [Dual.__radd__ Dual.__rmul__ Dual.__add__ Dual.__mul__] in H;
    cbv iota in H;
    (destruct (is_int_or_float c); [| discriminate H]);
    repeat returned H; injection H as <-; cbn [real_part];
    (rewrite number_op_comm; [assumption | exact C | auto]).
Qed.

(** What an expression returns on a dual against what it returns on the
    real part of the dual. *)
Lemma eval_on_real_part (X : Dual) (e : expr) (vd : value) :
  complex_commutes ->
  eval e (DualObj X) = Return vd ->
  match vd with
  | Num c =>
      mentions_x e = false /\ eval e (Num (real_part X)) = Return (Num c)
  | DualObj r =>
      mentions_x e = true
      /\ (no_reflected_sub e = true ->
          eval e (Num (real_part X)) = Return (Num (real_part r)))
  | _ => True
  end.
Proof.
  intro C.
  revert vd. induction e as [| c | a IHa op b IHb]; intros vd H.
  - injection H as <-. split; reflexivity.
  - injection H as <-. split; reflexivity.
  - cbn [eval] in H.
    destruct (eval a (DualObj X)) as [l |]; cbn [bind] in H; [| discriminate H].
    destruct (eval b (DualObj X)) as [r |]; cbn [bind] in H; [| discriminate H].
    specialize (IHa l eq_refl). specialize (IHb r eq_refl).
    destruct vd as [c | d | | msg]; try exact I.
    + destruct (number_result_operands op l r c H) as (u & v & -> & -> & Hn).
      destruct IHa as [Ma Ea], IHb as [Mb Eb].
      split; [cbn [mentions_x]; now rewrite Ma, Mb |].
      cbn [eval]. rewrite Ea, Eb; cbn [bind].
      rewrite binary_op_numbers, Hn. reflexivity.
    + destruct (machine_numeric_result_operands op l r _ H eq_refl) as [Hl Hr].
      destruct l as [u | A | | ml]; try discriminate Hl;
        destruct r as [v | B | | mr]; try discriminate Hr.
      * rewrite binary_op_numbers in H.
        destruct (number_op op u v); discriminate H.
      * destruct IHa as [Ma Ea], IHb as [Mb Eb].
        split; [cbn [mentions_x]; rewrite Mb; apply orb_true_r |].
        intro N. cbn [no_reflected_sub] in N.
        apply andb_prop in N as [N Nop]. apply andb_prop in N as [Na Nb].
        cbn [eval]. rewrite Ea, (Eb Nb); cbn [bind].
        rewrite binary_op_numbers.
        rewrite (real_part_number_dual op B d u C H); [reflexivity |].
        intros ->. rewrite Ma, Mb in Nop. discriminate Nop.
      * destruct IHa as [Ma Ea], IHb as [Mb Eb].
        split; [cbn [mentions_x]; now rewrite Ma |].
        intro N. cbn [no_reflected_sub] in N.
        apply andb_prop in N as [N Nop]. apply andb_prop in N as [Na Nb].
        cbn [eval]. rewrite (Ea Na), Eb; cbn [bind].
        rewrite binary_op_numbers.
        now rewrite (real_part_dual_number op A d v H).
      * destruct IHa as [Ma Ea], IHb as [Mb Eb].
        split; [cbn [mentions_x]; now rewrite Ma |].
        intro N. cbn [no_reflected_sub] in N.
        apply andb_prop in N as [N Nop]. apply andb_prop in N as [Na Nb].
        cbn [eval]. rewrite (Ea Na), (Eb Nb); cbn [bind].
        rewrite binary_op_numbers.
        now rewrite (real_part_dual_dual op A B d H).
Qed.

(** X12.  The value the helper returns is the definition on the plain
    number.  For a definition that is an arithmetic expression ([x], numeric
    literals and the operators [+], [-], [*], [/], [**]) without a
    subtraction [c - x] (an operand free of [x] minus one that names [x]):
    when the helper returns [(v, d)] for the point [p], evaluating the
    definition with [x] bound to the number [p] returns [v], rounded as the
    helper's value is.  Should complex numbers come in, their [+] and [*]
    are taken to commute. *)
Theorem helper_value_is_plain_value (e : expr) (p v d : number)
    (out out' : list printed) :
  complex_commutes ->
  no_reflected_sub e = true ->
  value_and_derivative_at_point (mkGeneralFunction e) p out = (Return (v, d), out') ->
  eval e (Num p) = Return (Num v).
Proof.
  intros C N H. apply machine_helper_returns in H.
  destruct (eval_on_real_part (mkDual p (Int 1)) e _ C H) as [_ E].
  exact (E N).
Qed.

End MachineExpressions.

(* ================================================================== *)
(** ** The properties at the sample objects *)

Section MachineSamples.
Import Machine.

Lemma no_libm_commutes : complex_commutes (platform := no_libm).
Proof. intros a b. split; reflexivity. Qed.

Lemma func_is_polynomial : polynomial (definition Main.func) = true.
Proof. reflexivity. Qed.

(** [(x ** 2) ** 3] and [x ** 6] for [x = Dual(4, 3)]. *)
Lemma int_power_of_power_at_sample :
  (1 <= 2)%Z /\ (1 <= 3)%Z
  /\ (Y <- binary_op (platform := no_libm) Pow (DualObj Main.x) (Num (Int 2)) ;;
      binary_op (platform := no_libm) Pow Y (Num (Int 3)))
     = binary_op (platform := no_libm) Pow (DualObj Main.x) (Num (Int 6)).
Proof.
  split; [lia |]. split; [lia |].
  exact (@int_power_of_power no_libm 4 3 2 3 ltac:(lia) ltac:(lia))%Z.
Defined.

(** [x**2 + 7*x - 18] at the point 7: the value 80 and the derivative 21. *)
Lemma polynomial_func_at_7 :
  polynomial (definition Main.func) = true
  /\ value_and_derivative_at_point (platform := no_libm) Main.func (Int 7) []
     = (Return (Int 80, Int 21), [mkPrinted Main.func (Int 7) (Int 80) (Int 21)]).
Proof.
  split; [reflexivity |].
  exact (@helper_differentiates_polynomials no_libm (definition Main.func) 7 []
           func_is_polynomial).
Defined.

(** [x**2 + 7*x - 18] on the plain number 7 returns 80. *)
Lemma plain_value_of_func_at_7 :
  complex_commutes (platform := no_libm)
  /\ no_reflected_sub (definition Main.func) = true
  /\ eval (platform := no_libm) (definition Main.func) (Num (Int 7))
     = Return (Num (Int 80)).
Proof.
  split; [exact no_libm_commutes |].
  split; [reflexivity |].
  exact (@helper_value_is_plain_value no_libm (definition Main.func)
           (Int 7) (Int 80) (Int 21) []
           [mkPrinted Main.func (Int 7) (Int 80) (Int 21)]
           no_libm_commutes eq_refl
           (@helper_on_polynomial no_libm (definition Main.func) 7 []
              func_is_polynomial)).
Defined.

(** The definition [5] names no [x]: the helper raises [AttributeError]. *)
Lemma helper_raises_on_five :
  mentions_x (Constant (Int 5)) = false
  /\ int_constant (Constant (Int 5)) = true
  /\ value_and_derivative_at_point (platform := no_libm)
       (mkGeneralFunction (Constant (Int 5))) (Int 7) []
     = (Raise AttributeError, []).
Proof.
  split; [reflexivity |]. split; [reflexivity |].
  exact (proj2 (@helper_raises_without_x no_libm (Constant (Int 5)) (Int 7) []
                  eq_refl) eq_refl).
Defined.

(** The square of [x**2 + 7*x - 18] at 7: the value [80 ** 2] and the
    derivative [2 * 80 * 21]. *)
Lemma chain_rule_on_square_of_func :
  polynomial (BinOp Name_x Pow (Constant (Int 2))) = true
  /\ polynomial (definition Main.func) = true
  /\ exists vg dg vf df : Z,
      fst (value_and_derivative_at_point (platform := no_libm)
             Main.func (Int 7) [])
        = Return (Int vg, Int dg)
      /\ fst (value_and_derivative_at_point (platform := no_libm)
                (mkGeneralFunction (BinOp Name_x Pow (Constant (Int 2)))) (Int vg) [])
        = Return (Int vf, Int df)
      /\ fst (value_and_derivative_at_point (platform := no_libm)
                (mkGeneralFunction
                   (substitute (BinOp Name_x Pow (Constant (Int 2)))
                               (definition Main.func)))
                (Int 7) [])
        = Return (Int vf, Int (df * dg)).
Proof.
  split; [reflexivity |]. split; [reflexivity |].
  exact (@helper_chain_rule_on_polynomials no_libm
           (BinOp Name_x Pow (Constant (Int 2))) (definition Main.func) 7 []
           eq_refl func_is_polynomial).
Defined.

(** In [x**2 + 7*x - 18] at 7 the part [7*x] returned a dual. *)
Lemma numeric_parts_of_func :
  value_and_derivative_at_point (platform := no_libm) Main.func (Int 7) []
    = (Return (Int 80, Int 21), [mkPrinted Main.func (Int 7) (Int 80) (Int 21)])
  /\ In (BinOp (Constant (Int 7)) Mult Name_x) (subexpressions (definition Main.func))
  /\ exists w,
      eval (platform := no_libm) (BinOp (Constant (Int 7)) Mult Name_x)
        (DualObj (mkDual (Int 7) (Int 1))) = Return w
      /\ is_numeric w = true.
Proof.
  assert (H : value_and_derivative_at_point (platform := no_libm)
                (mkGeneralFunction (definition Main.func)) (Int 7) []
              = (Return (Int 80, Int 21),
                 [mkPrinted Main.func (Int 7) (Int 80) (Int 21)])).
  { exact (@helper_on_polynomial no_libm (definition Main.func) 7 []
             func_is_polynomial). }
  assert (I : In (BinOp (Constant (Int 7)) Mult Name_x)
                (subexpressions (definition Main.func))).
  { cbn. do 5 right. left. reflexivity. }
  split; [exact H |]. split; [exact I |].
  exact (@helper_returns_only_on_numeric_parts no_libm (definition Main.func)
           (Int 7) (Int 80) (Int 21) [] _ H _ I).
Defined.

(** [x + y] and [y + x], [x * y] and [y * x] on the sample numbers. *)
Lemma commute_at_samples :
  complex_commutes (platform := no_libm)
  /\ binary_op (platform := no_libm) Add (DualObj Main.x) (DualObj Main.y)
     = binary_op (platform := no_libm) Add (DualObj Main.y) (DualObj Main.x)
  /\ binary_op (platform := no_libm) Mult (DualObj Main.x) (DualObj Main.y)
     = binary_op (platform := no_libm) Mult (DualObj Main.y) (DualObj Main.x).
Proof.
  split; [exact no_libm_commutes |].
  exact (@sum_and_product_commute no_libm Main.x Main.y no_libm_commutes).
Defined.

End MachineSamples.
